(** * RuG_2DOF: the Dynamixel device-communication core

    A shallow embedding of [dynamixel_webapp/dynamixel_controller.py] and of
    the connection and scan code of [dynamixel_webapp/app.py].

    The Dynamixel SDK ([PortHandler], [PacketHandler]) is an external
    collaborator.  It is modelled as an oracle: every SDK call is appended to
    a trace, and the SDK's answer is an arbitrary function of the trace so
    far and of the call.  All theorems quantify over that oracle, so they
    hold for every behaviour of the serial bus.

    Python [int] is [Z]; [&] is [Z.land]; a [dict] with string keys is a
    [gmap string _]; exceptions are an explicit result type threaded by a
    state-and-error monad.  [print] calls and the mutual-exclusion locks have
    no effect on the sequential behaviour described here and are left out. *)

From stdpp Require Import base strings gmap list pretty.
From Stdlib Require Import ZArith Lia Sorted.

#[local] Set Warnings "-clear-no-such-hyp".

Local Open Scope string_scope.
Local Open Scope list_scope.
Local Open Scope Z_scope.

(** ** Python values and exceptions *)

(** The values stored in a telemetry state dictionary. *)
Inductive PyVal :=
| VInt (z : Z)
| VBool (b : bool)
| VStr (s : string).

(** Values found in an incoming JSON message. *)
Inductive JVal :=
| JNone
| JBool (b : bool)
| JInt (z : Z)
| JStr (s : string).

(** Exceptions.  [DynamixelError] is the class of the repository; an
    [AttributeError] is what a lookup of a missing attribute raises;
    [ForeignError] is any other [Exception] coming out of the SDK. *)
Inductive Exn :=
| DynamixelError (msg : string)
| AttributeError (msg : string)
| ForeignError (msg : string).

(** [str(e)] *)
Definition str_of_exn (e : Exn) : string :=
  match e with
  | DynamixelError m | AttributeError m | ForeignError m => m
  end.

(** [str(n)] for an integer, as an f-string renders it. *)
Definition str_of_Z (n : Z) : string := pretty n.

(** [bool(n)] for an integer. *)
Definition bool_of_Z (n : Z) : bool := negb (n =? 0).

(** ** The SDK oracle *)

Inductive Width := W1 | W2 | W4.

(** One call into the SDK.  A port handler object is identified by the
    position in the trace at which it was constructed. *)
Inductive Call :=
| NewPortHandler (port : string)
| OpenPort (h : nat)
| SetBaudRate (h : nat) (baud : Z)
| ClosePort (h : nat)
| Ping (h : nat) (id : Z)
| ReadTxRx (w : Width) (h : nat) (id addr : Z)
| WriteTxRx (w : Width) (h : nat) (id addr value : Z).

(** What an SDK call does: it returns, or raises. *)
Inductive Reply (A : Type) :=
| Ret (a : A)
| Throw (msg : string).
Arguments Ret {A} a.
Arguments Throw {A} msg.

Record SDK := {
  COMM_SUCCESS : Z;
  sdk_openPort : list Call → nat → Reply bool;
  sdk_setBaudRate : list Call → nat → Z → Reply bool;
  sdk_closePort : list Call → nat → Reply unit;
  (* (model_number, dxl_comm_result, dxl_error) *)
  sdk_ping : list Call → nat → Z → Reply (Z * Z * Z);
  (* (value, dxl_comm_result, dxl_error) *)
  sdk_read : list Call → Width → nat → Z → Z → Reply (Z * Z * Z);
  (* (dxl_comm_result, dxl_error) *)
  sdk_write : list Call → Width → nat → Z → Z → Z → Reply (Z * Z);
  getTxRxResult : Z → string;
  getRxPacketError : Z → string
}.

(** ** State-and-error monad *)

Inductive Res (A : Type) :=
| Ok (a : A)
| Err (e : Exn).
Arguments Ok {A} a.
Arguments Err {A} e.

Definition M (S A : Type) : Type := S → Res A * S.

Definition ret {S A} (a : A) : M S A := λ s, (Ok a, s).

Definition bind {S A B} (m : M S A) (k : A → M S B) : M S B :=
  λ s, match m s with
       | (Ok a, s') => k a s'
       | (Err e, s') => (Err e, s')
       end.

Definition raise {S A} (e : Exn) : M S A := λ s, (Err e, s).

Definition get {S} : M S S := λ s, (Ok s, s).
Definition modify {S} (f : S → S) : M S unit := λ s, (Ok tt, f s).

(** [try: m  except Exception as e: handler e] *)
Definition try_except {S A} (m : M S A) (handler : Exn → M S A) : M S A :=
  λ s, match m s with
       | (Ok a, s') => (Ok a, s')
       | (Err e, s') => handler e s'
       end.

(** [try: m  except DynamixelError as exc: handler (str exc)]; every other
    exception keeps propagating. *)
Definition try_except_DynamixelError {S A}
    (m : M S A) (handler : string → M S A) : M S A :=
  λ s, match m s with
       | (Err (DynamixelError msg), s') => handler msg s'
       | r => r
       end.

(** [try: m  finally: fin] where [fin] itself does not raise out. *)
Definition try_finally {S A} (m : M S A) (fin : M S unit) : M S A :=
  λ s, match m s with
       | (r, s') => match fin s' with
                    | (Ok _, s'') => (r, s'')
                    | (Err e, s'') => (Err e, s'')
                    end
       end.

(** Run a computation on the second component of a pair state. *)
Definition lift_snd {L S A} (m : M S A) : M (L * S) A :=
  λ '(l, s), match m s with (r, s') => (r, (l, s')) end.

Global Instance M_ret {S} : MRet (M S) := λ A, ret.
Global Instance M_bind {S} : MBind (M S) := λ A B k m, bind m k.
Global Instance M_throw {S} : MThrow Exn (M S) := λ A, raise.

(** The world is the trace of SDK calls issued so far. *)
Abbreviation World := (list Call).

(** ** Control table ([dynamixel_controller.py], lines 8-33) *)

Definition ADDR_OPERATING_MODE : Z := 11.
Definition ADDR_TORQUE_ENABLE : Z := 64.
Definition ADDR_VELOCITY_I_GAIN : Z := 76.
Definition ADDR_VELOCITY_P_GAIN : Z := 78.
Definition ADDR_POSITION_D_GAIN : Z := 80.
Definition ADDR_POSITION_I_GAIN : Z := 82.
Definition ADDR_POSITION_P_GAIN : Z := 84.
Definition ADDR_PROFILE_ACCEL : Z := 108.
Definition ADDR_PROFILE_VELOCITY : Z := 112.
Definition ADDR_GOAL_PWM : Z := 100.
Definition ADDR_GOAL_CURRENT : Z := 102.
Definition ADDR_GOAL_VELOCITY : Z := 104.
Definition ADDR_GOAL_POSITION : Z := 116.
Definition ADDR_PRESENT_PWM : Z := 124.
Definition ADDR_PRESENT_CURRENT : Z := 126.
Definition ADDR_PRESENT_VELOCITY : Z := 128.
Definition ADDR_PRESENT_POSITION : Z := 132.
Definition ADDR_MOVING : Z := 122.

(** [OPERATING_MODE_NAMES.get(mode, f"Mode {mode}")] *)
Definition OPERATING_MODE_NAMES (mode : Z) : option string :=
  match mode with
  | 0 => Some "Current Control Mode"
  | 1 => Some "Velocity Control Mode"
  | 3 => Some "Position Control Mode"
  | 4 => Some "Extended Position Control Mode"
  | 5 => Some "Current-based Position Mode"
  | 16 => Some "PWM Control Mode"
  | _ => None
  end.

Definition operating_mode_name (mode : Z) : string :=
  default ("Mode " +:+ str_of_Z mode) (OPERATING_MODE_NAMES mode).

(** ** Packet codec: the width and sign logic of [_writeN] and [_readN] *)

(** [0xFF], [0xFFFF], [0xFFFFFFFF] *)
Definition width_mask (w : Width) : Z :=
  match w with W1 => 0xFF | W2 => 0xFFFF | W4 => 0xFFFFFFFF end.

(** What [_write1], [_write2], [_write4] put on the wire: [value & mask]. *)
Definition encode (w : Width) (value : Z) : Z := Z.land value (width_mask w).

(** What [_read1], [_read2], [_read4] make of the wire value:
    [if value & 0x8000: value -= 0x10000] for width 2,
    [if value & 0x80000000: value -= 0x100000000] for width 4,
    nothing for width 1. *)
Definition decode (w : Width) (value : Z) : Z :=
  match w with
  | W1 => value
  | W2 => if Z.land value 0x8000 =? 0 then value else value - 0x10000
  | W4 => if Z.land value 0x80000000 =? 0 then value else value - 0x100000000
  end.

Definition width_bits (w : Width) : Z :=
  match w with W1 => 8 | W2 => 16 | W4 => 32 end.

(** The values a field of width [w] can hold: unsigned for width 1, signed
    two's complement for widths 2 and 4. *)
Definition representable (w : Width) (v : Z) : Prop :=
  match w with
  | W1 => 0 ≤ v < 2 ^ 8
  | W2 => - 2 ^ 15 ≤ v < 2 ^ 15
  | W4 => - 2 ^ 31 ≤ v < 2 ^ 31
  end.

(** ** Loops *)

(** [for x in xs: body x] *)
Fixpoint for_each {S A} (xs : list A) (body : A → M S unit) : M S unit :=
  match xs with
  | [] => ret tt
  | x :: rest => body x ;; for_each rest body
  end.

(** A [for] loop that updates one local variable [acc]. *)
Fixpoint for_acc {S A B} (xs : list A) (acc : B) (body : B → A → M S B)
    : M S B :=
  match xs with
  | [] => ret acc
  | x :: rest => acc' ← body acc x; for_acc rest acc' body
  end.

(** [local = init; m; return local]: a local variable that [m] mutates in
    place, so that what [m] stored before raising is still there. *)
Definition run_local {L S A} (init : L) (m : M (L * S) A) : M S L :=
  λ s, match m (init, s) with
       | (Ok _, (l, s')) => (Ok l, s')
       | (Err e, (_, s')) => (Err e, s')
       end.

(** [if x is not None: f x] *)
Definition if_not_None {S A} (x : option A) (f : A → M S unit) : M S unit :=
  match x with
  | Some v => f v
  | None => ret tt
  end.

(** ** [class DynamixelController] *)

Record Controller := {
  port_name : string;
  baudrate : Z;
  ids : list Z;
  port_handler : nat
}.

Section Controller.

Context (sdk : SDK).

(** An SDK call: the answer depends on the trace so far; the call is then
    recorded. *)
Definition sdk_call {A} (c : Call) (answer : list Call → Reply A)
    : M World A :=
  λ w, match answer w with
       | Ret a => (Ok a, w ++ [c])
       | Throw msg => (Err (ForeignError msg), w ++ [c])
       end.

(** [PortHandler(port)] *)
Definition PortHandler (port : string) : M World nat :=
  λ w, (Ok (length w), w ++ [NewPortHandler port]).

Definition openPort (h : nat) : M World bool :=
  sdk_call (OpenPort h) (λ w, sdk_openPort sdk w h).
Definition setBaudRate (h : nat) (baud : Z) : M World bool :=
  sdk_call (SetBaudRate h baud) (λ w, sdk_setBaudRate sdk w h baud).
Definition closePort (h : nat) : M World unit :=
  sdk_call (ClosePort h) (λ w, sdk_closePort sdk w h).
Definition ping (h : nat) (id : Z) : M World (Z * Z * Z) :=
  sdk_call (Ping h id) (λ w, sdk_ping sdk w h id).
Definition readTxRx (wd : Width) (h : nat) (id addr : Z)
    : M World (Z * Z * Z) :=
  sdk_call (ReadTxRx wd h id addr) (λ w, sdk_read sdk w wd h id addr).
Definition writeTxRx (wd : Width) (h : nat) (id addr value : Z)
    : M World (Z * Z) :=
  sdk_call (WriteTxRx wd h id addr value)
           (λ w, sdk_write sdk w wd h id addr value).

(** The check that follows every exchange: a transport failure first, then a
    device fault, each raised as a [DynamixelError] whose text starts with
    [what]. *)
Definition check_result (what : string) (dxl_comm_result dxl_error : Z)
    : M World unit :=
  if negb (dxl_comm_result =? COMM_SUCCESS sdk) then
    raise (DynamixelError (what +:+ getTxRxResult sdk dxl_comm_result))
  else if negb (dxl_error =? 0) then
    raise (DynamixelError (what +:+ getRxPacketError sdk dxl_error))
  else ret tt.

Definition read_failed (dxl_id addr : Z) : string :=
  "Failed to read (ID " +:+ str_of_Z dxl_id +:+ ", addr "
    +:+ str_of_Z addr +:+ "): ".

Definition write_failed (dxl_id addr : Z) : string :=
  "Failed to write (ID " +:+ str_of_Z dxl_id +:+ ", addr "
    +:+ str_of_Z addr +:+ "): ".

(** [_read1], [_read2], [_read4] differ in the exchange they issue and in
    the sign recovery, which [decode] holds for each width. *)
Definition read_width (wd : Width) (self : Controller) (dxl_id addr : Z)
    : M World Z :=
  '(value, dxl_comm_result, dxl_error) ←
     readTxRx wd (port_handler self) dxl_id addr;
  check_result (read_failed dxl_id addr) dxl_comm_result dxl_error ;;
  ret (decode wd value).

Definition _read1 := read_width W1.
Definition _read2 := read_width W2.
Definition _read4 := read_width W4.

(** [_write1], [_write2], [_write4] differ in the exchange they issue and in
    the mask, which [encode] holds for each width. *)
Definition write_width (wd : Width) (self : Controller)
    (dxl_id addr value : Z) : M World unit :=
  '(dxl_comm_result, dxl_error) ←
     writeTxRx wd (port_handler self) dxl_id addr (encode wd value);
  check_result (write_failed dxl_id addr) dxl_comm_result dxl_error.

Definition _write1 := write_width W1.
Definition _write2 := write_width W2.
Definition _write4 := write_width W4.

Definition get_model_number (self : Controller) (dxl_id : Z) : M World Z :=
  '(model_number, dxl_comm_result, dxl_error) ←
     ping (port_handler self) dxl_id;
  (if negb (dxl_comm_result =? COMM_SUCCESS sdk) then
     raise (DynamixelError ("Ping failed (ID " +:+ str_of_Z dxl_id +:+ "): "
                              +:+ getTxRxResult sdk dxl_comm_result))
   else if negb (dxl_error =? 0) then
     raise (DynamixelError ("Ping error (ID " +:+ str_of_Z dxl_id +:+ "): "
                              +:+ getRxPacketError sdk dxl_error))
   else ret tt) ;;
  ret model_number.

(** [DynamixelController.__init__] *)
Definition __init__ (port : string) (baudrate : Z) (ids : list Z)
    : M World Controller :=
  h ← PortHandler port;
  let self := {| port_name := port; baudrate := baudrate;
                 ids := ids; port_handler := h |} in
  opened ← openPort h;
  if negb opened then
    raise (DynamixelError ("Failed to open port " +:+ port))
  else
    set ← setBaudRate h baudrate;
    if negb set then
      raise (DynamixelError ("Failed to set baudrate " +:+ str_of_Z baudrate
                               +:+ " on " +:+ port))
    else
      for_each ids (λ dxl_id,
        try_except_DynamixelError
          (get_model_number self dxl_id ;; ret tt)
          (λ _, ret tt)) ;;
      ret self.

Definition set_torque (self : Controller) (dxl_id : Z) (enable : bool)
    : M World unit :=
  _write1 self dxl_id ADDR_TORQUE_ENABLE (if enable then 1 else 0).

Definition set_operating_mode (self : Controller) (dxl_id mode : Z)
    (auto_torque : bool) : M World unit :=
  (if auto_torque then
     try_except_DynamixelError (set_torque self dxl_id false) (λ _, ret tt)
   else ret tt) ;;
  _write1 self dxl_id ADDR_OPERATING_MODE mode ;;
  if auto_torque then set_torque self dxl_id true else ret tt.

Definition set_pid (self : Controller) (dxl_id : Z)
    (position_p position_i position_d velocity_p velocity_i : option Z)
    : M World unit :=
  if_not_None position_p (_write2 self dxl_id ADDR_POSITION_P_GAIN) ;;
  if_not_None position_i (_write2 self dxl_id ADDR_POSITION_I_GAIN) ;;
  if_not_None position_d (_write2 self dxl_id ADDR_POSITION_D_GAIN) ;;
  if_not_None velocity_p (_write2 self dxl_id ADDR_VELOCITY_P_GAIN) ;;
  if_not_None velocity_i (_write2 self dxl_id ADDR_VELOCITY_I_GAIN).

Definition set_goals (self : Controller) (dxl_id : Z)
    (goal_position goal_velocity goal_current goal_pwm
     profile_velocity profile_accel : option Z) : M World unit :=
  if_not_None profile_accel (_write4 self dxl_id ADDR_PROFILE_ACCEL) ;;
  if_not_None profile_velocity (_write4 self dxl_id ADDR_PROFILE_VELOCITY) ;;
  if_not_None goal_pwm (_write2 self dxl_id ADDR_GOAL_PWM) ;;
  if_not_None goal_current (_write2 self dxl_id ADDR_GOAL_CURRENT) ;;
  if_not_None goal_velocity (_write4 self dxl_id ADDR_GOAL_VELOCITY) ;;
  if_not_None goal_position (_write4 self dxl_id ADDR_GOAL_POSITION).

(** [state[key] = value] on the local dictionary of [read_state]. *)
Definition set_item (key : string) (value : PyVal)
    : M (gmap string PyVal * World) unit :=
  modify (λ '(state, w), (<[key := value]> state, w)).

(** [state.get("operating_mode", 0)]; the entry, when present, is the
    integer stored by the first statement of the [try] block. *)
Definition get_operating_mode : M (gmap string PyVal * World) Z :=
  '(state, _) ← get;
  ret (match state !! "operating_mode" with
       | Some (VInt mode) => mode
       | Some (VBool b) => Z.b2z b
       | Some (VStr _) | None => 0
       end).

Definition read_state (self : Controller) (dxl_id : Z)
    : M World (gmap string PyVal) :=
  run_local ∅
    (try_except_DynamixelError
       (v ← lift_snd (_read1 self dxl_id ADDR_OPERATING_MODE);
        set_item "operating_mode" (VInt v) ;;
        v ← lift_snd (_read1 self dxl_id ADDR_TORQUE_ENABLE);
        set_item "torque_enabled" (VBool (bool_of_Z v)) ;;
        v ← lift_snd (_read2 self dxl_id ADDR_PRESENT_PWM);
        set_item "present_pwm" (VInt v) ;;
        v ← lift_snd (_read2 self dxl_id ADDR_PRESENT_CURRENT);
        set_item "present_current" (VInt v) ;;
        v ← lift_snd (_read4 self dxl_id ADDR_PRESENT_VELOCITY);
        set_item "present_velocity" (VInt v) ;;
        v ← lift_snd (_read4 self dxl_id ADDR_PRESENT_POSITION);
        set_item "present_position" (VInt v) ;;
        v ← lift_snd (_read1 self dxl_id ADDR_MOVING);
        set_item "moving" (VBool (bool_of_Z v)) ;;
        mode ← get_operating_mode;
        set_item "operating_mode_name" (VStr (operating_mode_name mode)))
       (λ exc, set_item "error" (VStr exc))).

Definition read_all (self : Controller)
    : M World (gmap Z (gmap string PyVal)) :=
  for_acc (ids self) ∅ (λ result dxl_id,
    state ← read_state self dxl_id;
    ret (<[dxl_id := state]> result)).

Definition read_all_states (self : Controller) := read_all self.

(** [close]: the test [self.port_handler is not None] always passes, since
    the attribute is assigned in [__init__] and by no other statement. *)
Definition close (self : Controller) : M World unit :=
  try_except (closePort (port_handler self)) (λ _, ret tt).

End Controller.

(** ** Attribute lookup on a controller object *)

(** The names a [DynamixelController] object answers to: the attributes
    assigned in [__init__] and the methods of the class. *)
Definition DynamixelController_attributes : list string :=
  [ "port_name"; "baudrate"; "ids"; "port_handler"; "packet_handler"; "lock";
    "__init__"; "_read1"; "_read2"; "_read4"; "_write1"; "_write2";
    "_write4"; "get_model_number"; "set_torque"; "set_operating_mode";
    "set_pid"; "set_goals"; "read_state"; "read_all"; "read_all_states";
    "close" ].

Definition TypeError {S A} : M S A :=
  raise (ForeignError "TypeError").

Section Methods.

Context (sdk : SDK).

(** The methods of the class as called with positional integer arguments
    (a call used as a statement drops the value).  A wrong number of
    arguments is a [TypeError]. *)
Definition DynamixelController_methods
    : list (string * (Controller → list Z → M World unit)) :=
  [ ("_read1", λ self args, match args with
       | [i; a] => _read1 sdk self i a ;; ret tt | _ => TypeError end);
    ("_read2", λ self args, match args with
       | [i; a] => _read2 sdk self i a ;; ret tt | _ => TypeError end);
    ("_read4", λ self args, match args with
       | [i; a] => _read4 sdk self i a ;; ret tt | _ => TypeError end);
    ("_write1", λ self args, match args with
       | [i; a; v] => _write1 sdk self i a v | _ => TypeError end);
    ("_write2", λ self args, match args with
       | [i; a; v] => _write2 sdk self i a v | _ => TypeError end);
    ("_write4", λ self args, match args with
       | [i; a; v] => _write4 sdk self i a v | _ => TypeError end);
    ("get_model_number", λ self args, match args with
       | [i] => get_model_number sdk self i ;; ret tt | _ => TypeError end);
    ("set_torque", λ self args, match args with
       | [i; e] => set_torque sdk self i (bool_of_Z e) | _ => TypeError end);
    ("set_operating_mode", λ self args, match args with
       | [i; m] => set_operating_mode sdk self i m true
       | [i; m; t] => set_operating_mode sdk self i m (bool_of_Z t)
       | _ => TypeError end);
    ("set_pid", λ self args, match args with
       | i :: r =>
           if bool_decide (length r ≤ 5)%nat then
             set_pid sdk self i (r !! 0%nat) (r !! 1%nat) (r !! 2%nat)
                     (r !! 3%nat) (r !! 4%nat)
           else TypeError
       | _ => TypeError end);
    ("set_goals", λ self args, match args with
       | i :: r =>
           if bool_decide (length r ≤ 6)%nat then
             set_goals sdk self i (r !! 0%nat) (r !! 1%nat) (r !! 2%nat)
                       (r !! 3%nat) (r !! 4%nat) (r !! 5%nat)
           else TypeError
       | _ => TypeError end);
    ("read_state", λ self args, match args with
       | [i] => read_state sdk self i ;; ret tt | _ => TypeError end);
    ("read_all", λ self args, match args with
       | [] => read_all sdk self ;; ret tt | _ => TypeError end);
    ("read_all_states", λ self args, match args with
       | [] => read_all_states sdk self ;; ret tt | _ => TypeError end);
    ("close", λ self args, match args with
       | [] => close sdk self | _ => TypeError end) ].

Definition lookup_method (name : string)
    : option (Controller → list Z → M World unit) :=
  match list_find (λ entry, fst entry = name) DynamixelController_methods with
  | Some (_, (_, method)) => Some method
  | None => None
  end.

(** [self.name(args)]: an unknown name raises [AttributeError]; a data
    attribute or [__init__] called with integers raises [TypeError]. *)
Definition call_method (self : Controller) (name : string) (args : list Z)
    : M World unit :=
  if bool_decide (name ∈ DynamixelController_attributes) then
    match lookup_method name with
    | Some method => method self args
    | None => TypeError
    end
  else
    raise (AttributeError ("'DynamixelController' object has no attribute '"
                             +:+ name +:+ "'")).

End Methods.

(** ** [app.py]: process-wide state and emitted events *)

(** [connection_info] *)
Record ConnInfo := {
  info_port : option string;
  info_baudrate : option Z;
  info_ids : list Z
}.

(** The events handed to [emit], with their payload fields.  The last
    field of [scan_result] holds [port], [baudrate], [idMin], [idMax], which
    only the report of a completed sweep carries. *)
Inductive Emit :=
| scan_result (ok : bool) (message : string) (found : list Z)
              (echo : option (string * Z * Z * Z))
| backend_error (message : string)
| log (level message : string).

(** The globals [dxl], [dxl_error_message], [connection_info], the events
    emitted so far, and the SDK trace. *)
Record App := {
  dxl : option Controller;
  dxl_error_message : option string;
  connection_info : ConnInfo;
  outbox : list Emit;
  world : World
}.

Definition set_dxl (v : option Controller) : M App unit :=
  modify (λ a, {| dxl := v; dxl_error_message := dxl_error_message a;
                  connection_info := connection_info a;
                  outbox := outbox a; world := world a |}).

Definition set_dxl_error_message (v : option string) : M App unit :=
  modify (λ a, {| dxl := dxl a; dxl_error_message := v;
                  connection_info := connection_info a;
                  outbox := outbox a; world := world a |}).

Definition set_connection_info (v : ConnInfo) : M App unit :=
  modify (λ a, {| dxl := dxl a; dxl_error_message := dxl_error_message a;
                  connection_info := v;
                  outbox := outbox a; world := world a |}).

Definition emit (e : Emit) : M App unit :=
  modify (λ a, {| dxl := dxl a; dxl_error_message := dxl_error_message a;
                  connection_info := connection_info a;
                  outbox := outbox a ++ [e]; world := world a |}).

(** Run controller or SDK code against the trace held in the state. *)
Definition in_world {A} (m : M World A) : M App A :=
  λ a, match m (world a) with
       | (r, w') => (r, {| dxl := dxl a;
                           dxl_error_message := dxl_error_message a;
                           connection_info := connection_info a;
                           outbox := outbox a; world := w' |})
       end.

(** Truth value of a message field. *)
Definition truthy (v : JVal) : bool :=
  match v with
  | JNone => false
  | JBool b => b
  | JInt z => negb (z =? 0)
  | JStr s => negb (String.eqb s "")
  end.

(** [repr] of a list of integers, as an f-string renders [found_ids]. *)
Definition repr_list (l : list Z) : string :=
  "[" +:+ String.concat ", " (str_of_Z <$> l) +:+ "]".

(** The fields of a [scan_servos] message; an absent key is [JNone]
    ([None] for the port). *)
Record ScanMessage := {
  msg_port : option string;
  msg_baudrate : JVal;
  msg_idMin : JVal;
  msg_idMax : JVal
}.

(** The fields of a [set_torque] message as the client sent them; an absent
    key is [JNone]. *)
Record TorqueMessage := { torque_id : JVal; torque_enable : JVal }.

(** The fields of a [set_pid] message after the [int] conversions that
    precede the [try] block. *)

Record PidMessage := {
  pid_id : Z; pid_P : Z; pid_I : Z; pid_D : Z;
  pid_velocityP : Z; pid_velocityI : Z
}.

Section App.

Context (sdk : SDK).

(** [config.py] is not part of the sources: its constants are parameters. *)
Context (DEFAULT_BAUDRATE SCAN_ID_MIN SCAN_ID_MAX : Z).

(** Python's [int] on a string: [None] when it raises [ValueError]. *)
Context (int_of_str : string → option Z).

(** [int(v)]: [None] when it raises [TypeError] or [ValueError]. *)
Definition py_int (v : JVal) : option Z :=
  match v with
  | JNone => None
  | JBool b => Some (Z.b2z b)
  | JInt z => Some z
  | JStr s => int_of_str s
  end.

(** The text of the [TypeError] or [ValueError] that [int(v)] raises; for a
    string, that of a string without quotes or escapes. *)
Definition int_error_text (v : JVal) : string :=
  match v with
  | JStr s => "invalid literal for int() with base 10: '" +:+ s +:+ "'"
  | _ => "int() argument must be a string, a bytes-like object or a real number, not 'NoneType'"
  end.

(** [int(v)] as a statement: the [TypeError] or [ValueError] is carried as
    a [ForeignError]. *)
Definition int_conv {S} (v : JVal) : M S Z :=
  match py_int v with
  | Some z => ret z
  | None => raise (ForeignError (int_error_text v))
  end.

(** [[int(i) for i in ids]] *)
Fixpoint int_ids {S} (raw : list JVal) : M S (list Z) :=
  match raw with
  | [] => ret []
  | i :: rest =>
      z ← int_conv i;
      zs ← int_ids rest;
      ret (z :: zs)
  end.

(** [int(v or fallback)] *)
Definition int_or (v : JVal) (fallback : Z) : option Z :=
  if truthy v then py_int v else Some fallback.

Definition connect_controller (port : string) (baudrate : Z) (ids : list Z)
    : M App (bool * string) :=
  a ← get;
  match dxl a with
  | Some previous =>
      try_except (in_world (close sdk previous)) (λ _, ret tt) ;;
      set_dxl None
  | None => ret tt
  end ;;
  try_except
    (controller ← in_world (__init__ sdk port baudrate ids);
     set_dxl (Some controller) ;;
     set_connection_info {| info_port := Some port;
                            info_baudrate := Some baudrate;
                            info_ids := ids |} ;;
     set_dxl_error_message None ;;
     ret (true, "Connected successfully."))
    (λ e,
     set_dxl None ;;
     set_dxl_error_message (Some (str_of_exn e)) ;;
     ret (false, "Failed to connect: " +:+ str_of_exn e)).

Definition disconnect_controller : M App unit :=
  a ← get;
  match dxl a with
  | Some current =>
      try_except (in_world (close sdk current)) (λ _, ret tt) ;;
      set_dxl None
  | None => ret tt
  end ;;
  set_connection_info {| info_port := None; info_baudrate := None;
                         info_ids := [] |}.

(** The probe loop of [handle_scan_servos]:
    [for dxl_id in range(id_min, id_max + 1)]. *)
Definition scan_probe (h : nat) (found_ids : list Z) (dxl_id : Z)
    : M World (list Z) :=
  try_except
    ('(model_number, dxl_comm_result, dxl_error) ← ping sdk h dxl_id;
     if (dxl_comm_result =? COMM_SUCCESS sdk) && (dxl_error =? 0)
     then ret (found_ids ++ [dxl_id])
     else ret found_ids)
    (λ _, ret found_ids).

Definition scan_sweep (h : nat) (id_min id_max : Z) : M World (list Z) :=
  for_acc (seqZ id_min (id_max + 1 - id_min)) [] (scan_probe h).

(** [int(message.get("baudrate") or DEFAULT_BAUDRATE)], with the default
    again when the conversion raises. *)
Definition scan_baudrate (message : ScanMessage) : Z :=
  default DEFAULT_BAUDRATE (int_or (msg_baudrate message) DEFAULT_BAUDRATE).

(** The id range of a scan: both bounds converted in one [try] block, so a
    bound that does not convert resets both to the defaults; then swapped
    when reversed. *)
Definition scan_range (message : ScanMessage) : Z * Z :=
  let '(id_min, id_max) :=
    match int_or (msg_idMin message) SCAN_ID_MIN,
          int_or (msg_idMax message) SCAN_ID_MAX with
    | Some lo, Some hi => (lo, hi)
    | _, _ => (SCAN_ID_MIN, SCAN_ID_MAX)
    end in
  if id_min >? id_max then (id_max, id_min) else (id_min, id_max).

(** The message of a completed sweep. *)
Definition scan_message (port : string) (baudrate id_min id_max : Z)
    (found_ids : list Z) : string :=
  match found_ids with
  | _ :: _ => "Found IDs: " +:+ repr_list found_ids
  | [] => "No servos responded on " +:+ port +:+ " @ "
            +:+ str_of_Z baudrate +:+ " in range "
            +:+ str_of_Z id_min +:+ "-" +:+ str_of_Z id_max +:+ "."
  end.

Definition handle_scan_servos (message : ScanMessage) : M App unit :=
  match msg_port message with
  | Some port =>
    if String.eqb port "" then
      emit (scan_result false "No port specified." [] None)
    else
      let baudrate := scan_baudrate message in
      let '(id_min, id_max) := scan_range message in
      h ← in_world (PortHandler port);
      try_finally
        (opened ← in_world (openPort sdk h);
         if negb opened then
           emit (scan_result false ("Failed to open port " +:+ port) [] None)
         else
           set ← in_world (setBaudRate sdk h baudrate);
           if negb set then
             emit (scan_result false
                     ("Failed to set baudrate " +:+ str_of_Z baudrate)
                     [] None)
           else
             found_ids ← in_world (scan_sweep h id_min id_max);
             emit (scan_result true
                     (scan_message port baudrate id_min id_max found_ids)
                     found_ids
                     (Some (port, baudrate, id_min, id_max))))
        (try_except (in_world (closePort sdk h)) (λ _, ret tt))
  | None => emit (scan_result false "No port specified." [] None)
  end.

Definition not_connected : M App unit :=
  emit (backend_error "Not connected to any Dynamixel bus.").

Definition handle_set_torque (message : TorqueMessage) : M App unit :=
  a ← get;
  match dxl a with
  | None => not_connected
  | Some controller =>
      dxl_id ← int_conv (torque_id message);
      let enable := truthy (torque_enable message) in
      try_except_DynamixelError
        (in_world (set_torque sdk controller dxl_id enable) ;;
         emit (log "info" ("ID " +:+ str_of_Z dxl_id +:+ ": torque "
                             +:+ (if enable then "ON" else "OFF"))))
        (λ e, emit (log "error" ("Failed to set torque on ID "
                                   +:+ str_of_Z dxl_id +:+ ": " +:+ e)))
  end.

Definition handle_set_pid (message : PidMessage) : M App unit :=
  a ← get;
  match dxl a with
  | None => not_connected
  | Some controller =>
      let dxl_id := pid_id message in
      try_except_DynamixelError
        (in_world (call_method sdk controller "set_position_pid_gains"
                     [dxl_id; pid_P message; pid_I message; pid_D message]) ;;
         in_world (call_method sdk controller "set_velocity_pi_gains"
                     [dxl_id; pid_velocityP message; pid_velocityI message]) ;;
         emit (log "info" ("ID " +:+ str_of_Z dxl_id
                             +:+ ": updated PID gains")))
        (λ e, emit (log "error" ("Failed to set PID gains on ID "
                                   +:+ str_of_Z dxl_id +:+ ": " +:+ e)))
  end.

End App.

(** ** The exchanges an operation is expected to issue *)

(** The write by which [set_torque] switches torque on or off. *)
Definition torque_call (self : Controller) (dxl_id : Z) (enable : bool)
    : Call :=
  WriteTxRx W1 (port_handler self) dxl_id ADDR_TORQUE_ENABLE
            (if enable then 1 else 0).

(** The write of the operating-mode register. *)
Definition mode_call (self : Controller) (dxl_id mode : Z) : Call :=
  WriteTxRx W1 (port_handler self) dxl_id ADDR_OPERATING_MODE
            (encode W1 mode).

(** The SDK's answer to a write issued after the trace [w]. *)
Definition write_reply (sdk : SDK) (w : World) (c : Call)
    : option (Reply (Z * Z)) :=
  match c with
  | WriteTxRx wd h id addr value => Some (sdk_write sdk w wd h id addr value)
  | _ => None
  end.

(** The write [c], issued after [w], completes without transport failure
    and without device fault. *)
Definition accepted (sdk : SDK) (w : World) (c : Call) : Prop :=
  write_reply sdk w c = Some (Ret (COMM_SUCCESS sdk, 0)).

(** The write [c], issued after [w], is answered by a status pair, be it a
    success, a transport failure or a device fault. *)
Definition answered (sdk : SDK) (w : World) (c : Call) : Prop :=
  ∃ cr e, write_reply sdk w c = Some (Ret (cr, e)).

(** The exchange issued by [_write1], [_write2], [_write4]. *)
Definition write_call (wd : Width) (self : Controller)
    (dxl_id addr value : Z) : Call :=
  WriteTxRx wd (port_handler self) dxl_id addr (encode wd value).

(** The writes [set_goals] is expected to issue: one per argument that is
    not [None], profile acceleration first and goal position last. *)
Definition goal_writes (self : Controller) (dxl_id : Z)
    (goal_position goal_velocity goal_current goal_pwm
     profile_velocity profile_accel : option Z) : list Call :=
  option_list (write_call W4 self dxl_id ADDR_PROFILE_ACCEL <$> profile_accel)
  ++ option_list
       (write_call W4 self dxl_id ADDR_PROFILE_VELOCITY <$> profile_velocity)
  ++ option_list (write_call W2 self dxl_id ADDR_GOAL_PWM <$> goal_pwm)
  ++ option_list (write_call W2 self dxl_id ADDR_GOAL_CURRENT <$> goal_current)
  ++ option_list
       (write_call W4 self dxl_id ADDR_GOAL_VELOCITY <$> goal_velocity)
  ++ option_list
       (write_call W4 self dxl_id ADDR_GOAL_POSITION <$> goal_position).

(** The port handler a call goes through. *)
Definition call_handle (c : Call) : option nat :=
  match c with
  | NewPortHandler _ => None
  | OpenPort h | SetBaudRate h _ | ClosePort h | Ping h _
  | ReadTxRx _ h _ _ | WriteTxRx _ h _ _ _ => Some h
  end.

(** Every write is taken by the bus. *)
Definition accepts_all_writes (sdk : SDK) : Prop :=
  ∀ w wd h id addr value,
    sdk_write sdk w wd h id addr value = Ret (COMM_SUCCESS sdk, 0).

(** [m] issues the exchanges [calls], in order: whatever the bus does, what
    it has issued when it stops is an initial part of [calls]; when it
    returns normally it has issued all of them; and it does return normally
    when every write is taken. *)
Definition issues (sdk : SDK) (m : M World unit) (calls : list Call) : Prop :=
  ∀ w : World,
    (∃ issued, (m w).2 = w ++ issued ∧ issued `prefix_of` calls)
    ∧ ((m w).1 = Ok tt → (m w).2 = w ++ calls)
    ∧ (accepts_all_writes sdk → m w = (Ok tt, w ++ calls)).

(** The device [dxl_id] answers a probe issued after the trace [w]: the
    ping returns, with no transport failure and no device fault. *)
Definition responds (sdk : SDK) (w : World) (h : nat) (dxl_id : Z) : bool :=
  match sdk_ping sdk w h dxl_id with
  | Ret (_, dxl_comm_result, dxl_error) =>
      (dxl_comm_result =? COMM_SUCCESS sdk) && (dxl_error =? 0)
  | Throw _ => false
  end.

(** The ids of [l] that answer when probed one after the other from the
    trace [w] on. *)
Fixpoint responding (sdk : SDK) (h : nat) (w : World) (l : list Z) : list Z :=
  match l with
  | [] => []
  | dxl_id :: rest =>
      (if responds sdk w h dxl_id then [dxl_id] else [])
      ++ responding sdk h (w ++ [Ping h dxl_id]) rest
  end.

(** The trace once a scan has created its handler, opened the port and set
    the baud rate, starting from [w]. *)
Definition scan_opened (port : string) (baudrate : Z) (w : World) : World :=
  w ++ [NewPortHandler port; OpenPort (length w);
        SetBaudRate (length w) baudrate].

(** The port of a scan started after [w] opens and takes the baud rate. *)
Definition port_ready (sdk : SDK) (port : string) (baudrate : Z) (w : World)
    : Prop :=
  sdk_openPort sdk (w ++ [NewPortHandler port]) (length w) = Ret true
  ∧ sdk_setBaudRate sdk (w ++ [NewPortHandler port; OpenPort (length w)])
                    (length w) baudrate = Ret true.

(** ** The telemetry field set, as a table *)

(** One row per statement of the [try] block of [read_state]: the key
    stored, the width of the read, the address, and the conversion applied
    to the value read. *)
Record Field := {
  f_key : string;
  f_width : Width;
  f_addr : Z;
  f_conv : Z → PyVal
}.

Definition telemetry_fields : list Field :=
  [ {| f_key := "operating_mode"; f_width := W1;
       f_addr := ADDR_OPERATING_MODE; f_conv := VInt |};
    {| f_key := "torque_enabled"; f_width := W1;
       f_addr := ADDR_TORQUE_ENABLE; f_conv := λ v, VBool (bool_of_Z v) |};
    {| f_key := "present_pwm"; f_width := W2;
       f_addr := ADDR_PRESENT_PWM; f_conv := VInt |};
    {| f_key := "present_current"; f_width := W2;
       f_addr := ADDR_PRESENT_CURRENT; f_conv := VInt |};
    {| f_key := "present_velocity"; f_width := W4;
       f_addr := ADDR_PRESENT_VELOCITY; f_conv := VInt |};
    {| f_key := "present_position"; f_width := W4;
       f_addr := ADDR_PRESENT_POSITION; f_conv := VInt |};
    {| f_key := "moving"; f_width := W1;
       f_addr := ADDR_MOVING; f_conv := λ v, VBool (bool_of_Z v) |} ].

(** The read exchange of a field, and the SDK's answer to it after [w]. *)
Definition field_call (self : Controller) (dxl_id : Z) (f : Field) : Call :=
  ReadTxRx (f_width f) (port_handler self) dxl_id (f_addr f).

Definition field_reply (sdk : SDK) (self : Controller) (dxl_id : Z)
    (w : World) (f : Field) : Reply (Z * Z * Z) :=
  sdk_read sdk w (f_width f) (port_handler self) dxl_id (f_addr f).

(** The fields [done] are read one after the other from the trace [w] on,
    each exchange succeeding, with wire values [vs]. *)
Fixpoint reads_ok (sdk : SDK) (self : Controller) (dxl_id : Z) (w : World)
    (done : list Field) (vs : list Z) : Prop :=
  match done, vs with
  | [], [] => True
  | g :: done', v :: vs' =>
      field_reply sdk self dxl_id w g = Ret (v, COMM_SUCCESS sdk, 0)
      ∧ reads_ok sdk self dxl_id (w ++ [field_call self dxl_id g]) done' vs'
  | _, _ => False
  end.

(** The dictionary after storing the fields [done] read as [vs]. *)
Fixpoint store (state : gmap string PyVal) (done : list Field) (vs : list Z)
    : gmap string PyVal :=
  match done, vs with
  | g :: done', v :: vs' =>
      store (<[f_key g := f_conv g (decode (f_width g) v)]> state) done' vs'
  | _, _ => state
  end.

(** A status triple that makes a read raise: transport failure or device
    fault. *)
Definition failed (sdk : SDK) (dxl_comm_result dxl_error : Z) : Prop :=
  dxl_comm_result ≠ COMM_SUCCESS sdk ∨ dxl_error ≠ 0.

(** The text of the [DynamixelError] raised for such a triple. *)
Definition failure_text (sdk : SDK) (what : string)
    (dxl_comm_result dxl_error : Z) : string :=
  if negb (dxl_comm_result =? COMM_SUCCESS sdk)
  then what +:+ getTxRxResult sdk dxl_comm_result
  else what +:+ getRxPacketError sdk dxl_error.

(** The body of the [try] block of [read_state] as a loop over the table,
    followed by [rest]. *)
Fixpoint read_fields (sdk : SDK) (self : Controller) (dxl_id : Z)
    (fs : list Field) (rest : M (gmap string PyVal * World) unit)
    : M (gmap string PyVal * World) unit :=
  match fs with
  | [] => rest
  | f :: fs' =>
      v ← lift_snd (read_width sdk (f_width f) self dxl_id (f_addr f));
      set_item (f_key f) (f_conv f v) ;;
      read_fields sdk self dxl_id fs' rest
  end.

(** The keys of a telemetry state read without failure. *)
Definition state_keys : gset string :=
  {[ "operating_mode"; "torque_enabled"; "present_pwm"; "present_current";
     "present_velocity"; "present_position"; "moving";
     "operating_mode_name" ]}.



(** ** A simulated bus *)

(** A bench whose answers do not depend on the trace: which ids are on the
    bus, what their registers hold, and the device error, if any, that an
    id reports when a register is read or written. *)
Record Bench := {
  present : Z → bool;
  registers : Z → Z → Z;
  read_fault : Z → Z → Z;
  write_fault : Z → Z → Z → Z
}.

Definition COMM_RX_TIMEOUT : Z := -3001.

Definition bench_sdk (b : Bench) : SDK := {|
  COMM_SUCCESS := 0;
  sdk_openPort := λ _ _, Ret true;
  sdk_setBaudRate := λ _ _ _, Ret true;
  sdk_closePort := λ _ _, Ret tt;
  sdk_ping := λ _ _ id,
    if present b id then Ret (1200, 0, 0) else Ret (0, COMM_RX_TIMEOUT, 0);
  sdk_read := λ _ _ _ id addr,
    if present b id then Ret (registers b id addr, 0, read_fault b id addr)
    else Ret (0, COMM_RX_TIMEOUT, 0);
  sdk_write := λ _ _ _ id addr value,
    if present b id then Ret (0, write_fault b id addr value)
    else Ret (COMM_RX_TIMEOUT, 0);
  getTxRxResult := λ _, "[TxRxResult] There is no status packet!";
  getRxPacketError := λ _, "[RxPacketError] Hardware error occurred."
|}.

(** Servos 3 and 7 on the bus; servo 7 reports a device error when its
    present PWM is read; servo 3 reports one when its torque is switched
    off. *)
Definition bench_3_7 : Bench := {|
  present := λ id, (id =? 3) || (id =? 7);
  registers := λ id addr, if addr =? ADDR_OPERATING_MODE then 3 else 1;
  read_fault := λ id addr,
    if (id =? 7) && (addr =? ADDR_PRESENT_PWM) then 128 else 0;
  write_fault := λ id addr value,
    if (id =? 3) && (addr =? ADDR_TORQUE_ENABLE) && (value =? 0)
    then 1 else 0
|}.

(** Every id is on the bus and every exchange succeeds. *)
Definition bench_healthy : Bench := {|
  present := λ _, true;
  registers := λ _ _, 0;
  read_fault := λ _ _, 0;
  write_fault := λ _ _ _, 0
|}.

(** A session on the bench, as [__init__] builds it on a fresh trace. *)
Definition session_3_7 : Controller := {|
  port_name := "/dev/ttyUSB0"; baudrate := 57600; ids := [3; 7];
  port_handler := 0
|}.

(** The state of the application while [session_3_7] is connected. *)
Definition app_connected : App := {|
  dxl := Some session_3_7;
  dxl_error_message := Some "stale";
  connection_info := {| info_port := Some "/dev/ttyUSB0";
                        info_baudrate := Some 57600; info_ids := [3; 7] |};
  outbox := [];
  world := [NewPortHandler "/dev/ttyUSB0"; OpenPort 0; SetBaudRate 0 57600;
            Ping 0 3; Ping 0 7]
|}.

(** A scan message for ids 1 to 10 on port COM3, and the state before any
    connection. *)
Definition scan_1_10 : ScanMessage := {|
  msg_port := Some "COM3"; msg_baudrate := JNone;
  msg_idMin := JInt 1; msg_idMax := JInt 10
|}.

Definition app_idle : App := {|
  dxl := None; dxl_error_message := None;
  connection_info := {| info_port := None; info_baudrate := None;
                        info_ids := [] |};
  outbox := []; world := []
|}.

(** A [set_pid] message for servo 3. *)
Definition pid_message_3 : PidMessage := {|
  pid_id := 3; pid_P := 800; pid_I := 0; pid_D := 0;
  pid_velocityP := 100; pid_velocityI := 1920
|}.

(** A state that holds the error message and nothing else. *)
Definition error_only (state : gmap string PyVal) : Prop :=
  ∃ msg, state = {[ "error" := VStr msg ]}.

(** ** Further handlers of [app.py] *)

(** The events of [connect_servos] and [disconnect_servos], next to the
    events above. *)
Inductive Event :=
| relayed (e : Emit)
| connect_result (ok : bool) (message : string) (connected : bool)
                 (info : ConnInfo).

Definition emit_event (e : Event) : M (list Event * App) unit :=
  modify (λ '(sent, a), (sent ++ [e], a)).

(** [emit("connect_result", {"ok": ok, "message": message, "connected":
    connected, "info": connection_info})]: the info is the global as it is
    when the event is sent. *)
Definition emit_connect_result (ok : bool) (message : string)
    (connected : bool) : M (list Event * App) unit :=
  '(_, a) ← get;
  emit_event (connect_result ok message connected (connection_info a)).

(** The fields of a [connect_servos] message; [ids] is the list after
    [message.get("ids") or []], its members as the client sent them. *)
Record ConnectMessage := {
  cm_port : option string;
  cm_baudrate : JVal;
  cm_ids : list JVal
}.

(** The fields of a [set_goals] message as the client sent them; an absent
    key is [JNone]. *)
Record GoalsMessage := {
  goals_id : JVal;
  goalPosition : JVal;
  goalVelocity : JVal;
  goalCurrent : JVal;
  goalPwm : JVal;
  profileVelocity : JVal;
  profileAccel : JVal
}.

(** [repr] of an optional integer, as the f-string of [handle_set_goals]
    renders a value of [kwargs]. *)
Definition repr_option (v : option Z) : string :=
  match v with
  | Some z => str_of_Z z
  | None => "None"
  end.

(** [repr] of the [kwargs] dictionary of [handle_set_goals]. *)
Definition repr_kwargs
    (goal_position goal_velocity goal_current goal_pwm
     profile_velocity profile_accel : option Z) : string :=
  "{'goal_position': " +:+ repr_option goal_position
    +:+ ", 'goal_velocity': " +:+ repr_option goal_velocity
    +:+ ", 'goal_current': " +:+ repr_option goal_current
    +:+ ", 'goal_pwm': " +:+ repr_option goal_pwm
    +:+ ", 'profile_velocity': " +:+ repr_option profile_velocity
    +:+ ", 'profile_accel': " +:+ repr_option profile_accel +:+ "}".

Section Handlers.

Context (sdk : SDK).
Context (DEFAULT_BAUDRATE : Z).
Context (int_of_str : string → option Z).

(** The call [connect_controller(port, baudrate, ids)] on the ids of a
    message: the first statement of the function converts them,
    [ids = [int(i) for i in ids]], outside any [try]. *)
Definition connect_controller_on (port : string) (baudrate : Z)
    (ids : list JVal) : M App (bool * string) :=
  ids ← int_ids int_of_str ids;
  connect_controller sdk port baudrate ids.

Definition handle_connect_servos (message : ConnectMessage)
    : M (list Event * App) unit :=
  let ids := cm_ids message in
  match cm_port message with
  | Some port =>
    if String.eqb port "" then
      emit_connect_result false "No port specified." false
    else
      match ids with
      | [] => emit_connect_result false "No servo IDs selected." false
      | _ :: _ =>
          let baudrate :=
            default DEFAULT_BAUDRATE
              (int_or int_of_str (cm_baudrate message) DEFAULT_BAUDRATE) in
          '(ok, msg) ← lift_snd (connect_controller_on port baudrate ids);
          emit_connect_result ok msg ok ;;
          if negb ok then emit_event (relayed (backend_error msg))
          else ret tt
      end
  | None => emit_connect_result false "No port specified." false
  end.

Definition handle_disconnect_servos : M (list Event * App) unit :=
  lift_snd (disconnect_controller sdk) ;;
  emit_connect_result true "Disconnected from Dynamixel bus." false.

(** [maybe_int] of [handle_set_goals]: [None] for a value that is [None],
    the empty string or [False], [int(value)] otherwise.  The [ValueError]
    of [int] on a string is carried as a [ForeignError]; its text is that
    of a string without quotes or escapes. *)
Definition maybe_int {S} (value : JVal) : M S (option Z) :=
  match value with
  | JNone => ret None
  | JBool false => ret None
  | JBool true => ret (Some 1)
  | JInt z => ret (Some z)
  | JStr s =>
      if String.eqb s "" then ret None
      else match int_of_str s with
           | Some z => ret (Some z)
           | None =>
               raise (ForeignError
                        ("invalid literal for int() with base 10: '"
                           +:+ s +:+ "'"))
           end
  end.

Definition handle_set_goals (message : GoalsMessage) : M App unit :=
  a ← get;
  match dxl a with
  | None => not_connected
  | Some controller =>
      dxl_id ← int_conv int_of_str (goals_id message);
      goal_position ← maybe_int (goalPosition message);
      goal_velocity ← maybe_int (goalVelocity message);
      goal_current ← maybe_int (goalCurrent message);
      goal_pwm ← maybe_int (goalPwm message);
      profile_velocity ← maybe_int (profileVelocity message);
      profile_accel ← maybe_int (profileAccel message);
      try_except_DynamixelError
        (in_world (set_goals sdk controller dxl_id goal_position
                             goal_velocity goal_current goal_pwm
                             profile_velocity profile_accel) ;;
         emit (log "info" ("ID " +:+ str_of_Z dxl_id +:+ ": updated goals "
                             +:+ repr_kwargs goal_position goal_velocity
                                   goal_current goal_pwm profile_velocity
                                   profile_accel)))
        (λ e, emit (log "error" ("Failed to set goals on ID "
                                   +:+ str_of_Z dxl_id +:+ ": " +:+ e)))
  end.

End Handlers.

(** ** More expected exchanges *)

(** The writes [set_pid] is expected to issue: one per gain that is not
    [None], position P, I, D first, then velocity P, I. *)
Definition pid_writes (self : Controller) (dxl_id : Z)
    (position_p position_i position_d velocity_p velocity_i : option Z)
    : list Call :=
  option_list (write_call W2 self dxl_id ADDR_POSITION_P_GAIN <$> position_p)
  ++ option_list
       (write_call W2 self dxl_id ADDR_POSITION_I_GAIN <$> position_i)
  ++ option_list
       (write_call W2 self dxl_id ADDR_POSITION_D_GAIN <$> position_d)
  ++ option_list
       (write_call W2 self dxl_id ADDR_VELOCITY_P_GAIN <$> velocity_p)
  ++ option_list
       (write_call W2 self dxl_id ADDR_VELOCITY_I_GAIN <$> velocity_i).

(** The call by which a connect or a disconnect closes the session that is
    active in [a], if any. *)
Definition closing (a : App) : list Call :=
  match dxl a with
  | Some session => [ClosePort (port_handler session)]
  | None => []
  end.

(** [connection_info] when nothing is connected. *)
Definition no_connection : ConnInfo :=
  {| info_port := None; info_baudrate := None; info_ids := [] |}.

(** Every probe through the handler [h] is answered by a status triple, be
    it a success, a transport failure or a device fault. *)
Definition answers_pings (sdk : SDK) (h : nat) : Prop :=
  ∀ (w : World) id, ∃ model cr e, sdk_ping sdk w h id = Ret (model, cr, e).

(** Every write is answered by a status pair. *)
Definition answers_all_writes (sdk : SDK) : Prop :=
  ∀ w wd h id addr value,
    ∃ cr e, sdk_write sdk w wd h id addr value = Ret (cr, e).

(** The device answers every telemetry read by a status triple. *)
Definition answering_device (sdk : SDK) (self : Controller) (dxl_id : Z)
    : Prop :=
  ∀ (w : World) g, g ∈ telemetry_fields →
    ∃ v cr e, field_reply sdk self dxl_id w g = Ret (v, cr, e).

(** A telemetry state is either complete and free of error, or carries an
    error. *)
Definition complete_or_error (state : gmap string PyVal) : Prop :=
  (dom state = state_keys ∧ state !! "error" = None)
  ∨ is_Some (state !! "error").

(** A bench on which servo 3 does not take writes of its goal velocity. *)
Definition bench_stiff : Bench := {|
  present := λ id, (id =? 3) || (id =? 7);
  registers := λ _ _, 0;
  read_fault := λ _ _, 0;
  write_fault := λ id addr _,
    if (id =? 3) && (addr =? ADDR_GOAL_VELOCITY) then 4 else 0
|}.

(** A scan message with an empty port name. *)
Definition scan_unnamed : ScanMessage := {|
  msg_port := Some ""; msg_baudrate := JInt 57600;
  msg_idMin := JNone; msg_idMax := JNone
|}.

(** A bus whose port does not open, and one that opens but does not take
    the baud rate. *)
Definition sdk_no_port : SDK := {|
  COMM_SUCCESS := 0;
  sdk_openPort := λ _ _, Ret false;
  sdk_setBaudRate := λ _ _ _, Ret true;
  sdk_closePort := λ _ _, Throw "port is not open";
  sdk_ping := λ _ _ _, Ret (0, COMM_RX_TIMEOUT, 0);
  sdk_read := λ _ _ _ _ _, Ret (0, COMM_RX_TIMEOUT, 0);
  sdk_write := λ _ _ _ _ _ _, Ret (COMM_RX_TIMEOUT, 0);
  getTxRxResult := λ _, "[TxRxResult] There is no status packet!";
  getRxPacketError := λ _, "[RxPacketError] Hardware error occurred."
|}.

Definition sdk_no_baud : SDK := {|
  COMM_SUCCESS := 0;
  sdk_openPort := λ _ _, Ret true;
  sdk_setBaudRate := λ _ _ _, Ret false;
  sdk_closePort := λ _ _, Ret tt;
  sdk_ping := λ _ _ _, Ret (0, COMM_RX_TIMEOUT, 0);
  sdk_read := λ _ _ _ _ _, Ret (0, COMM_RX_TIMEOUT, 0);
  sdk_write := λ _ _ _ _ _ _, Ret (COMM_RX_TIMEOUT, 0);
  getTxRxResult := λ _, "[TxRxResult] There is no status packet!";
  getRxPacketError := λ _, "[RxPacketError] Hardware error occurred."
|}.

(** The event of a completed disconnect. *)
Definition disconnected_event : Event :=
  connect_result true "Disconnected from Dynamixel bus." false no_connection.

(** A [set_goals] message for servo 7 with a goal position of zero, a
    profile velocity given as text, and the other goals empty, absent or
    [False]. *)
Definition goals_message_7 : GoalsMessage := {|
  goals_id := JInt 7;
  goalPosition := JInt 0;
  goalVelocity := JStr "";
  goalCurrent := JNone;
  goalPwm := JBool false;
  profileVelocity := JStr "120";
  profileAccel := JInt 9
|}.

(** A [set_goals] message for servo 3 with an acceleration profile, a goal
    velocity and a goal position. *)
Definition goals_message_3 : GoalsMessage := {|
  goals_id := JInt 3;
  goalPosition := JInt 100;
  goalVelocity := JInt 50;
  goalCurrent := JNone;
  goalPwm := JNone;
  profileVelocity := JNone;
  profileAccel := JInt 9
|}.

(** A stand-in for [int] on the strings of the bench messages. *)
Definition bench_int_of_str (s : string) : option Z :=
  if String.eqb s "120" then Some 120 else None.

(** A [connect_servos] message without ids, and one for servo 5. *)
Definition connect_message_no_ids : ConnectMessage :=
  {| cm_port := Some "COM4"; cm_baudrate := JInt 1000000; cm_ids := [] |}.


(** The text with which the failure of a write starts. *)
Definition write_failed_of (c : Call) : string :=
  match c with
  | WriteTxRx _ _ id addr _ => write_failed id addr
  | _ => ""
  end.

(** The writes [calls], issued one after the other from the trace [w] on,
    are all taken by the bus. *)
Fixpoint all_accepted (sdk : SDK) (w : World) (calls : list Call) : Prop :=
  match calls with
  | [] => True
  | c :: rest => accepted sdk w c ∧ all_accepted sdk (w ++ [c]) rest
  end.

(** How a sequence of writes ends, from the trace [w], with result [r] and
    trace [w']: either every write is taken, all are issued and the result
    is normal; or the writes [done] are taken, the next one, [c], comes
    back with a failing status, nothing is issued after it, and the result
    is the [DynamixelError] of that write. *)
Definition write_outcome (sdk : SDK) (w : World) (calls : list Call)
    (r : Res unit) (w' : World) : Prop :=
  (all_accepted sdk w calls ∧ r = Ok tt ∧ w' = w ++ calls)
  ∨ ∃ done c rest cr e,
      calls = done ++ c :: rest
      ∧ all_accepted sdk w done
      ∧ write_reply sdk (w ++ done) c = Some (Ret (cr, e))
      ∧ failed sdk cr e
      ∧ r = Err (DynamixelError (failure_text sdk (write_failed_of c) cr e))
      ∧ w' = w ++ done ++ [c].

(** [m] ends as a sequence of the writes [calls] does. *)
Definition ends_as_writes (sdk : SDK) (m : M World unit)
    (calls : list Call) : Prop :=
  ∀ w : World, write_outcome sdk w calls (m w).1 (m w).2.

(** A scan message for ids 4 to 6 on port COM3. *)
Definition scan_4_6 : ScanMessage := {|
  msg_port := Some "COM3"; msg_baudrate := JNone;
  msg_idMin := JInt 4; msg_idMax := JInt 6
|}.

(** A [set_torque] message that switches servo 3 off, and one whose id is
    missing. *)
Definition torque_off_3 : TorqueMessage :=
  {| torque_id := JInt 3; torque_enable := JBool false |}.

Definition torque_no_id : TorqueMessage :=
  {| torque_id := JNone; torque_enable := JBool true |}.


(** * Properties *)

(** ** Packet codec *)

Lemma testbit_top (n x : Z) :
  0 ≤ n → 0 ≤ x < 2 ^ (n + 1) → Z.testbit x n = (2 ^ n <=? x).
Proof.
  intros Hn Hx.
  assert (Hp : 0 < 2 ^ n) by (apply Z.pow_pos_nonneg; lia).
  assert (Hs : 2 ^ (n + 1) = 2 * 2 ^ n) by (rewrite Z.pow_add_r by lia; lia).
  rewrite Z.testbit_eqb by lia.
  destruct (Z.leb_spec (2 ^ n) x) as [Hle | Hlt].
  - assert (x / 2 ^ n = 1) as ->; [| reflexivity].
    symmetry. apply (Z.div_unique x (2 ^ n) 1 (x - 2 ^ n)); lia.
  - rewrite Z.div_small by lia. reflexivity.
Qed.

Lemma land_top (n x : Z) :
  0 ≤ n → 0 ≤ x < 2 ^ (n + 1) →
  Z.land x (2 ^ n) = if 2 ^ n <=? x then 2 ^ n else 0.
Proof.
  intros Hn Hx. apply Z.bits_inj'. intros i Hi.
  rewrite Z.land_spec, Z.pow2_bits_eqb by lia.
  rewrite <- (testbit_top n x) by lia.
  destruct (Z.eqb_spec n i) as [-> | Hne].
  - rewrite andb_true_r. destruct (Z.testbit x i) eqn:E.
    + rewrite Z.pow2_bits_true; lia.
    + rewrite Z.bits_0. reflexivity.
  - rewrite andb_false_r. destruct (Z.testbit x n).
    + rewrite Z.pow2_bits_false; lia.
    + rewrite Z.bits_0. reflexivity.
Qed.

Lemma encode_mod (w : Width) (v : Z) : encode w v = v mod 2 ^ width_bits w.
Proof.
  unfold encode. rewrite <- Z.land_ones by (destruct w; simpl; lia).
  destruct w; reflexivity.
Qed.

Lemma encode_range (w : Width) (v : Z) : 0 ≤ encode w v < 2 ^ width_bits w.
Proof.
  rewrite encode_mod. apply Z.mod_pos_bound. destruct w; simpl; lia.
Qed.

(** Sign recovery on a wire value of the right width. *)
Lemma decode_wire (w : Width) (raw : Z) :
  0 ≤ raw < 2 ^ width_bits w →
  decode w raw =
    match w with
    | W1 => raw
    | _ => if 2 ^ (width_bits w - 1) <=? raw
           then raw - 2 ^ width_bits w else raw
    end.
Proof.
  intros Hr. destruct w; unfold decode, width_bits in *; [reflexivity | |].
  - change 0x8000 with (2 ^ 15). change 0x10000 with (2 ^ 16).
    change (16 - 1) with 15.
    rewrite land_top by (change (15 + 1) with 16; lia).
    destruct (2 ^ 15 <=? raw); reflexivity.
  - change 0x80000000 with (2 ^ 31). change 0x100000000 with (2 ^ 32).
    change (32 - 1) with 31.
    rewrite land_top by (change (31 + 1) with 32; lia).
    destruct (2 ^ 31 <=? raw); reflexivity.
Qed.

(** Two's complement on [n] bits: reducing a signed value modulo [2 ^ n]
    and subtracting [2 ^ n] when the top bit is set gives the value back. *)
Lemma signed_mod_round_trip (n v : Z) :
  0 < n → - 2 ^ (n - 1) ≤ v < 2 ^ (n - 1) →
  (if 2 ^ (n - 1) <=? v mod 2 ^ n then v mod 2 ^ n - 2 ^ n else v mod 2 ^ n)
    = v
  ∧ ((2 ^ (n - 1) <=? v mod 2 ^ n) = true ↔ v < 0).
Proof.
  intros Hn Hv.
  assert (Hp : 0 < 2 ^ (n - 1)) by (apply Z.pow_pos_nonneg; lia).
  assert (Hs : 2 ^ n = 2 * 2 ^ (n - 1)).
  { replace n with (n - 1 + 1) at 1 by lia.
    rewrite Z.pow_add_r by lia. lia. }
  destruct (Z_lt_le_dec v 0) as [Hneg | Hpos].
  - replace (v mod 2 ^ n) with (v + 2 ^ n)
      by (apply (Z.mod_unique v (2 ^ n) (-1)); lia).
    destruct (Z.leb_spec (2 ^ (n - 1)) (v + 2 ^ n)); split; lia.
  - rewrite Z.mod_small by lia.
    destruct (Z.leb_spec (2 ^ (n - 1)) v); split; lia.
Qed.

(** C3. For every width and every value representable in it (unsigned for
    width 1, signed two's complement for widths 2 and 4), the read path's
    sign recovery applied to the write path's masked value gives the value
    back; the masked value fits the width; and for the signed widths the
    top bit of the wire value is set exactly when the decoded value is
    negative. *)
Theorem codec_round_trip (w : Width) (v : Z) :
  representable w v →
  decode w (encode w v) = v
  ∧ 0 ≤ encode w v < 2 ^ width_bits w
  ∧ (w ≠ W1 →
     (Z.testbit (encode w v) (width_bits w - 1) = true
      ↔ decode w (encode w v) < 0)).
Proof.
  intros Hv.
  pose proof (encode_range w v) as Hr.
  assert (Hn : 0 < width_bits w) by (destruct w; simpl; lia).
  assert (Hd : decode w (encode w v) = v
               ∧ (w ≠ W1 →
                  (2 ^ (width_bits w - 1) <=? encode w v) = true ↔ v < 0)).
  { rewrite decode_wire by exact Hr. rewrite encode_mod.
    destruct w.
    - split; [apply Z.mod_small; exact Hv | congruence].
    - destruct (signed_mod_round_trip (width_bits W2) v Hn Hv); auto.
    - destruct (signed_mod_round_trip (width_bits W4) v Hn Hv); auto. }
  destruct Hd as [Hd Htop].
  split; [exact Hd |]. split; [exact Hr |].
  intros Hw. rewrite Hd.
  rewrite testbit_top;
    [ exact (Htop Hw) | lia
    | replace (width_bits w - 1 + 1) with (width_bits w) by lia; exact Hr].
Qed.

Lemma codec_round_trip_witness :
  representable W2 (-2)
  ∧ decode W2 (encode W2 (-2)) = -2
  ∧ 0 ≤ encode W2 (-2) < 2 ^ width_bits W2
  ∧ (W2 ≠ W1 →
     (Z.testbit (encode W2 (-2)) (width_bits W2 - 1) = true
      ↔ decode W2 (encode W2 (-2)) < 0)).
Proof.
  split; [simpl; lia |]. apply (codec_round_trip W2 (-2)). simpl; lia.
Defined.

(** ** Register writes *)

Section WriteProperties.

Context (sdk : SDK).

Lemma bind_run {S A B} (m : M S A) (k : A → M S B) (s : S) :
  (m ≫= k) s = match m s with
               | (Ok a, s') => k a s'
               | (Err e, s') => (Err e, s')
               end.
Proof. reflexivity. Qed.

Lemma check_result_run (what : string) (cr e : Z) (w : World) :
  check_result sdk what cr e w =
    (if negb (cr =? COMM_SUCCESS sdk)
     then Err (DynamixelError (what +:+ getTxRxResult sdk cr))
     else if negb (e =? 0)
          then Err (DynamixelError (what +:+ getRxPacketError sdk e))
          else Ok tt, w).
Proof.
  unfold check_result.
  destruct (negb (cr =? COMM_SUCCESS sdk)); [reflexivity |].
  destruct (negb (e =? 0)); reflexivity.
Qed.

Lemma check_result_success (what : string) (w : World) :
  check_result sdk what (COMM_SUCCESS sdk) 0 w = (Ok tt, w).
Proof. rewrite check_result_run, Z.eqb_refl. reflexivity. Qed.

(** A write issues exactly one exchange, whatever its outcome. *)
Lemma write_width_trace wd self id addr v (w : World) :
  (write_width sdk wd self id addr v w).2
  = w ++ [WriteTxRx wd (port_handler self) id addr (encode wd v)].
Proof.
  unfold write_width, writeTxRx, sdk_call. rewrite bind_run.
  destruct (sdk_write sdk w wd (port_handler self) id addr (encode wd v))
    as [[cr e] | msg]; [| reflexivity].
  rewrite check_result_run. reflexivity.
Qed.

Lemma write_width_accepted wd self id addr v (w : World) :
  sdk_write sdk w wd (port_handler self) id addr (encode wd v)
    = Ret (COMM_SUCCESS sdk, 0) →
  write_width sdk wd self id addr v w
  = (Ok tt, w ++ [WriteTxRx wd (port_handler self) id addr (encode wd v)]).
Proof.
  intros H. unfold write_width, writeTxRx, sdk_call. rewrite bind_run, H.
  apply check_result_success.
Qed.

(** When the SDK answers with a status pair, the write returns or raises a
    [DynamixelError]; no other exception comes out. *)
Lemma write_width_replied wd self id addr v (w : World) cr e :
  sdk_write sdk w wd (port_handler self) id addr (encode wd v)
    = Ret (cr, e) →
  (write_width sdk wd self id addr v w).1 = Ok tt
  ∨ ∃ msg, (write_width sdk wd self id addr v w).1
           = Err (DynamixelError msg).
Proof.
  intros H. unfold write_width, writeTxRx, sdk_call. rewrite bind_run, H.
  rewrite check_result_run.
  destruct (negb (cr =? COMM_SUCCESS sdk)); [right; eauto |].
  destruct (negb (e =? 0)); [right; eauto | left; reflexivity].
Qed.

End WriteProperties.

(** ** Operating mode *)

Section OperatingMode.

Context (sdk : SDK).

Lemma encode_W1_bit (b : bool) :
  encode W1 (if b then 1 else 0) = (if b then 1 else 0).
Proof. destruct b; reflexivity. Qed.

Lemma set_torque_trace self id enable (w : World) :
  (set_torque sdk self id enable w).2 = w ++ [torque_call self id enable].
Proof.
  unfold set_torque, _write1, torque_call.
  rewrite write_width_trace, encode_W1_bit. reflexivity.
Qed.

Lemma set_torque_accepted self id enable (w : World) :
  accepted sdk w (torque_call self id enable) →
  set_torque sdk self id enable w = (Ok tt, w ++ [torque_call self id enable]).
Proof.
  unfold accepted, torque_call, set_torque, _write1. simpl. intros [= H].
  rewrite write_width_accepted; rewrite encode_W1_bit; [reflexivity | exact H].
Qed.

(** The guarded torque-disable of [set_operating_mode] swallows a transport
    failure and a device fault alike. *)
Lemma torque_disable_tolerant self id (w : World) :
  answered sdk w (torque_call self id false) →
  try_except_DynamixelError (set_torque sdk self id false) (λ _, ret tt) w
  = (Ok tt, w ++ [torque_call self id false]).
Proof.
  intros (cr & e & H). unfold answered, torque_call in H. simpl in H.
  injection H as H.
  pose proof (set_torque_trace self id false w) as Ht.
  pose proof (write_width_replied sdk W1 self id ADDR_TORQUE_ENABLE 0 w cr e H)
    as Hr.
  unfold try_except_DynamixelError.
  change (write_width sdk W1 self id ADDR_TORQUE_ENABLE 0)
    with (set_torque sdk self id false) in Hr.
  destruct (set_torque sdk self id false w) as [r w']. simpl in *. subst w'.
  destruct Hr as [-> | [msg ->]]; reflexivity.
Qed.

(** C7. With [auto_torque], and whatever status the torque-disable write
    comes back with (success, transport failure or device fault),
    [set_operating_mode] issues torque-disable, then the operating-mode
    write, and goes on to torque-enable and nothing else: it stops after
    the mode write only when that write fails.  A call that returns
    normally, and every call whose mode write is taken, has issued exactly
    the three writes in that order; and the call succeeds when the mode
    write and the torque-enable write are taken. *)
Theorem set_operating_mode_sequence self id mode (w : World) :
  answered sdk w (torque_call self id false) →
  (∃ issued,
     (set_operating_mode sdk self id mode true w).2
     = w ++ [torque_call self id false; mode_call self id mode] ++ issued
     ∧ issued `prefix_of` [torque_call self id true])
  ∧ ((set_operating_mode sdk self id mode true w).1 = Ok tt
     ∨ accepted sdk (w ++ [torque_call self id false])
                (mode_call self id mode) →
     (set_operating_mode sdk self id mode true w).2
     = w ++ [torque_call self id false; mode_call self id mode;
             torque_call self id true])
  ∧ (accepted sdk (w ++ [torque_call self id false])
              (mode_call self id mode) →
     accepted sdk (w ++ [torque_call self id false; mode_call self id mode])
              (torque_call self id true) →
     (set_operating_mode sdk self id mode true w).1 = Ok tt).
Proof.
  intros Hdis.
  unfold set_operating_mode. rewrite bind_run.
  rewrite (torque_disable_tolerant self id w Hdis). rewrite bind_run.
  unfold _write1.
  pose proof (write_width_trace sdk W1 self id ADDR_OPERATING_MODE mode
                (w ++ [torque_call self id false])) as Ht.
  fold (mode_call self id mode) in Ht. rewrite <- app_assoc in Ht.
  assert (Hacc : accepted sdk (w ++ [torque_call self id false])
                   (mode_call self id mode) →
                 write_width sdk W1 self id ADDR_OPERATING_MODE mode
                   (w ++ [torque_call self id false])
                 = (Ok tt, w ++ [torque_call self id false;
                                 mode_call self id mode])).
  { intros Hm. unfold accepted, mode_call in Hm. simpl in Hm.
    injection Hm as Hm. rewrite write_width_accepted by exact Hm.
    rewrite <- app_assoc. reflexivity. }
  destruct (write_width sdk W1 self id ADDR_OPERATING_MODE mode
              (w ++ [torque_call self id false])) as [[[] | x] w1].
  - simpl in Ht. subst w1.
    pose proof (set_torque_trace self id true
                  (w ++ [torque_call self id false; mode_call self id mode]))
      as He.
    rewrite <- app_assoc in He.
    split; [exists [torque_call self id true]; split; [exact He | done] |].
    split; [intros _; exact He |].
    intros _ Hen. rewrite (set_torque_accepted _ _ _ _ Hen). reflexivity.
  - simpl in Ht. subst w1. simpl.
    split; [exists []; split; [reflexivity | apply prefix_nil] |].
    split; [intros [[=] | Hm]; specialize (Hacc Hm); discriminate |].
    intros Hm. specialize (Hacc Hm). discriminate.
Qed.

End OperatingMode.

Lemma set_operating_mode_sequence_witness :
  answered (bench_sdk bench_3_7) [] (torque_call session_3_7 3 false)
  ∧ ¬ accepted (bench_sdk bench_3_7) [] (torque_call session_3_7 3 false)
  ∧ set_operating_mode (bench_sdk bench_3_7) session_3_7 3 4 true []
    = (Ok tt, [torque_call session_3_7 3 false; mode_call session_3_7 3 4;
               torque_call session_3_7 3 true]).
Proof.
  assert (Ha : answered (bench_sdk bench_3_7) []
                 (torque_call session_3_7 3 false))
    by (exists 0, 1; reflexivity).
  split; [exact Ha |]. split; [intros [=] |].
  destruct (set_operating_mode_sequence (bench_sdk bench_3_7)
              session_3_7 3 4 [] Ha) as (_ & Htrace & Hres).
  specialize (Htrace (or_intror eq_refl)). specialize (Hres eq_refl eq_refl).
  destruct (set_operating_mode (bench_sdk bench_3_7) session_3_7 3 4 true [])
    as [r t].
  simpl in Htrace, Hres. rewrite Htrace, Hres. reflexivity.
Defined.

(** ** Goal writes *)

Section Goals.

Context (sdk : SDK).

Lemma issues_ret : issues sdk (mret tt) [].
Proof.
  intros w. simpl. rewrite app_nil_r. split_and!; [| done | done].
  exists []. rewrite app_nil_r. done.
Qed.

Lemma issues_write wd self id addr v :
  issues sdk (write_width sdk wd self id addr v)
         [write_call wd self id addr v].
Proof.
  intros w. pose proof (write_width_trace sdk wd self id addr v w) as Ht.
  fold (write_call wd self id addr v) in Ht.
  split_and!.
  - eexists. split; [exact Ht | done].
  - intros _. exact Ht.
  - intros Hacc. apply write_width_accepted, Hacc.
Qed.

Lemma issues_seq (m1 m2 : M World unit) (c1 c2 : list Call) :
  issues sdk m1 c1 → issues sdk m2 c2 → issues sdk (m1 ;; m2) (c1 ++ c2).
Proof.
  intros H1 H2 w. rewrite bind_run.
  destruct (H1 w) as ((i1 & Ht1 & Hp1) & Hok1 & Hacc1).
  destruct (m1 w) as [[[] | e] w1] eqn:E1; simpl in *.
  - pose proof (Hok1 eq_refl) as ->. clear Ht1 Hok1 Hacc1.
    destruct (H2 (w ++ c1)) as ((i2 & Ht2 & Hp2) & Hok2 & Hacc2).
    split_and!.
    + exists (c1 ++ i2). rewrite Ht2, app_assoc.
      split; [done | by apply prefix_app].
    + intros Hok. rewrite (Hok2 Hok), app_assoc. done.
    + intros Hacc. rewrite (Hacc2 Hacc), app_assoc. done.
  - split_and!.
    + exists i1. split; [done | by apply prefix_app_r].
    + done.
    + intros Hacc. specialize (Hacc1 Hacc). done.
Qed.

Lemma issues_if_not_None wd self id addr (value : option Z) :
  issues sdk (if_not_None value (write_width sdk wd self id addr))
         (option_list (write_call wd self id addr <$> value)).
Proof.
  destruct value as [v |]; simpl; [apply issues_write | apply issues_ret].
Qed.

(** What [set_goals] issues. *)
Lemma set_goals_writes_issued self id
    (goal_position goal_velocity goal_current goal_pwm
     profile_velocity profile_accel : option Z) :
  issues sdk
    (set_goals sdk self id goal_position goal_velocity goal_current goal_pwm
               profile_velocity profile_accel)
    (goal_writes self id goal_position goal_velocity goal_current goal_pwm
                 profile_velocity profile_accel).
Proof.
  unfold set_goals, goal_writes, _write2, _write4.
  repeat apply issues_seq; apply issues_if_not_None.
Qed.

(** C8. [set_goals] writes exactly the arguments that are not [None], in
    the order profile acceleration, profile velocity, PWM, current,
    velocity, position.  Whatever the bus answers, what has been written
    when the call ends is an initial part of that sequence, so an absent
    field is never written and the order never changes; a call that
    returns normally has written all of it; and the call does return
    normally when the bus takes every write. *)
Theorem set_goals_writes_present_in_order self id
    (goal_position goal_velocity goal_current goal_pwm
     profile_velocity profile_accel : option Z) :
  issues sdk
    (set_goals sdk self id goal_position goal_velocity goal_current goal_pwm
               profile_velocity profile_accel)
    (goal_writes self id goal_position goal_velocity goal_current goal_pwm
                 profile_velocity profile_accel).
Proof.
  unfold set_goals, goal_writes, _write2, _write4.
  repeat apply issues_seq; apply issues_if_not_None.
Qed.

End Goals.

Lemma set_goals_writes_present_in_order_witness :
  accepts_all_writes (bench_sdk bench_healthy)
  ∧ set_goals (bench_sdk bench_healthy) session_3_7 7
              (Some (-5)) None None (Some 300) None (Some 9) []
    = (Ok tt, [write_call W4 session_3_7 7 ADDR_PROFILE_ACCEL 9;
               write_call W2 session_3_7 7 ADDR_GOAL_PWM 300;
               write_call W4 session_3_7 7 ADDR_GOAL_POSITION (-5)]).
Proof.
  assert (Hacc : accepts_all_writes (bench_sdk bench_healthy))
    by (intros w wd h id addr value; reflexivity).
  split; [exact Hacc |].
  destruct (set_goals_writes_present_in_order (bench_sdk bench_healthy)
              session_3_7 7 (Some (-5)) None None (Some 300) None (Some 9) [])
    as (_ & _ & Hrun).
  exact (Hrun Hacc).
Defined.

(** ** Closing a session *)

Section Close.

Context (sdk : SDK).

(** [close] never raises and always calls [closePort]. *)
Lemma close_run self (w : World) :
  close sdk self w = (Ok tt, w ++ [ClosePort (port_handler self)]).
Proof.
  unfold close, try_except, closePort, sdk_call.
  destruct (sdk_closePort sdk w (port_handler self)) as [[] | msg];
    reflexivity.
Qed.

(** C5. [close] never raises, also on a session that was closed before;
    but every call releases the port handler again: [n] calls to [close]
    make [n] calls to [closePort] on the same handler, not one. *)
Theorem close_releases_every_time self (n : nat) (w : World) :
  for_each (replicate n tt) (λ _, close sdk self) w
  = (Ok tt, w ++ replicate n (ClosePort (port_handler self))).
Proof.
  revert w. induction n as [| n IH]; intros w; simpl.
  - rewrite app_nil_r. reflexivity.
  - rewrite bind_run, close_run, IH, <- app_assoc. reflexivity.
Qed.

End Close.

(** ** Connecting *)

Section Connect.

Context (sdk : SDK).

Lemma get_model_number_trace self id (w : World) :
  (get_model_number sdk self id w).2 = w ++ [Ping (port_handler self) id].
Proof.
  unfold get_model_number, ping, sdk_call. rewrite bind_run.
  destruct (sdk_ping sdk w (port_handler self) id) as [[[m cr] e] | msg];
    [| reflexivity].
  rewrite bind_run.
  destruct (negb (cr =? COMM_SUCCESS sdk)); [reflexivity |].
  destruct (negb (e =? 0)); reflexivity.
Qed.

(** The diagnostic pings of [__init__] only go through the new handler. *)
Lemma init_pings_trace self (l : list Z) (w : World) :
  ∃ rest,
    (for_each l (λ dxl_id,
       try_except_DynamixelError
         (get_model_number sdk self dxl_id ;; mret tt)
         (λ _, mret tt)) w).2 = w ++ rest
    ∧ Forall (λ c, call_handle c = Some (port_handler self)) rest.
Proof.
  revert w. induction l as [| id l IH]; intros w; simpl.
  - exists []. rewrite app_nil_r. done.
  - rewrite bind_run. unfold try_except_DynamixelError at 1.
    rewrite bind_run.
    pose proof (get_model_number_trace self id w) as Ht.
    destruct (get_model_number sdk self id w) as [[m | e] w1];
      simpl in Ht; subst w1.
    + destruct (IH (w ++ [Ping (port_handler self) id])) as (rest & Hr & Hf).
      exists (Ping (port_handler self) id :: rest).
      simpl. rewrite Hr, <- app_assoc. split; [done |].
      constructor; done.
    + destruct e as [msg | msg | msg]; simpl.
      * destruct (IH (w ++ [Ping (port_handler self) id]))
          as (rest & Hr & Hf).
        exists (Ping (port_handler self) id :: rest).
        rewrite Hr, <- app_assoc. split; [done |].
        constructor; done.
      * exists [Ping (port_handler self) id]. split; [done |].
        repeat constructor.
      * exists [Ping (port_handler self) id]. split; [done |].
        repeat constructor.
Qed.

(** [__init__] creates a handler, tries to open it, and from then on only
    talks through it; the session it returns is the one asked for. *)
Lemma init_shape port baud l (w : World) :
  ∃ r rest,
    __init__ sdk port baud l w
    = (r, w ++ [NewPortHandler port; OpenPort (length w)] ++ rest)
    ∧ Forall (λ c, call_handle c = Some (length w)) rest
    ∧ ∀ c, r = Ok c →
           c = {| port_name := port; baudrate := baud; ids := l;
                  port_handler := length w |}.
Proof.
  unfold __init__, PortHandler. rewrite bind_run, bind_run.
  unfold openPort, sdk_call.
  destruct (sdk_openPort sdk (w ++ [NewPortHandler port]) (length w))
    as [[] | msg]; simpl.
  - rewrite bind_run. unfold setBaudRate, sdk_call.
    destruct (sdk_setBaudRate sdk _ (length w) baud) as [[] | msg]; simpl.
    + rewrite bind_run.
      set (self := {| port_name := port; baudrate := baud; ids := l;
                      port_handler := length w |}).
      match goal with
      | |- context [for_each l ?body ?tr] =>
          destruct (init_pings_trace self l tr) as (rest & Hr & Hf);
          change (for_each l _ tr) with (for_each l body tr) in Hr;
          destruct (for_each l body tr) as [[[] | e] w1]
      end; simpl in Hr; subst w1.
      * exists (Ok self), (SetBaudRate (length w) baud :: rest).
        split_and!; [| by constructor | by intros c [= <-]].
        simpl. f_equal. rewrite <- !app_assoc. reflexivity.
      * exists (Err e), (SetBaudRate (length w) baud :: rest).
        split_and!; [| by constructor | done].
        f_equal. rewrite <- !app_assoc. reflexivity.
    + exists (Err (DynamixelError
                     ("Failed to set baudrate " +:+ str_of_Z baud
                        +:+ " on " +:+ port))),
             [SetBaudRate (length w) baud].
      split; [| split; [by repeat constructor | done]].
      unfold raise. f_equal. rewrite <- !app_assoc. reflexivity.
    + exists (Err (ForeignError msg)), [SetBaudRate (length w) baud].
      split; [| split; [by repeat constructor | done]].
      f_equal. rewrite <- !app_assoc. reflexivity.
  - exists (Err (DynamixelError ("Failed to open port " +:+ port))), [].
    split; [| split; [by constructor | done]].
    unfold raise. f_equal. rewrite <- !app_assoc. reflexivity.
  - exists (Err (ForeignError msg)), [].
    split; [| split; [by constructor | done]].
    f_equal. rewrite <- !app_assoc. reflexivity.
Qed.

End Connect.

(** ** Scanning *)

Section Scan.

Context (sdk : SDK).
Context (DEFAULT_BAUDRATE SCAN_ID_MIN SCAN_ID_MAX : Z).
Context (int_of_str : string → option Z).

(** One probe: the id is kept exactly when it answers; a ping that raises
    or fails is skipped, and the exchange is issued in every case. *)
Lemma scan_probe_run h found id (w : World) :
  scan_probe sdk h found id w
  = (Ok (found ++ (if responds sdk w h id then [id] else [])),
     w ++ [Ping h id]).
Proof.
  unfold scan_probe, try_except, responds, ping, sdk_call.
  rewrite bind_run.
  destruct (sdk_ping sdk w h id) as [[[m cr] e] | msg].
  - destruct ((cr =? COMM_SUCCESS sdk) && (e =? 0)); simpl;
      [| rewrite app_nil_r]; reflexivity.
  - simpl. rewrite app_nil_r. reflexivity.
Qed.

Lemma sweep_run h (l : list Z) found (w : World) :
  for_acc l found (scan_probe sdk h) w
  = (Ok (found ++ responding sdk h w l), w ++ (Ping h <$> l)).
Proof.
  revert found w. induction l as [| id l IH]; intros found w; simpl.
  - rewrite !app_nil_r. reflexivity.
  - rewrite bind_run, scan_probe_run, IH.
    rewrite <- !app_assoc. reflexivity.
Qed.

Lemma responding_elem_of h (l : list Z) (w : World) id :
  id ∈ responding sdk h w l ↔
  ∃ i : nat, l !! i = Some id
             ∧ responds sdk (w ++ (Ping h <$> take i l)) h id = true.
Proof.
  revert w. induction l as [| x l IH]; intros w; simpl.
  - split; [intros H; inversion H | intros (i & H & _); done].
  - rewrite elem_of_app, IH. split.
    + intros [Hx | (i & Hi & Hr)].
      * destruct (responds sdk w h x) eqn:E; [| inversion Hx].
        apply list_elem_of_singleton in Hx as ->.
        exists 0%nat. simpl. rewrite app_nil_r. done.
      * exists (S i). simpl. rewrite <- app_assoc in Hr. done.
    + intros ([| i] & Hi & Hr); simpl in *.
      * injection Hi as ->. rewrite app_nil_r in Hr. rewrite Hr.
        left. apply list_elem_of_singleton. done.
      * right. exists i. rewrite <- app_assoc. done.
Qed.

Lemma responding_sorted h (l : list Z) (w : World) :
  StronglySorted Z.lt l → StronglySorted Z.lt (responding sdk h w l).
Proof.
  revert w. induction l as [| x l IH]; intros w Hs; simpl; [constructor |].
  apply StronglySorted_inv in Hs as [Hl Hx].
  destruct (responds sdk w h x); simpl; [| apply IH, Hl].
  constructor; [apply IH, Hl |].
  rewrite Forall_forall in Hx |- *. intros y Hy.
  apply responding_elem_of in Hy as (i & Hi & _).
  apply Hx. eapply list_elem_of_lookup_2. exact Hi.
Qed.

Lemma seqZ_sorted (m n : Z) : StronglySorted Z.lt (seqZ m n).
Proof.
  destruct (Z_le_gt_dec n 0) as [Hn | Hn].
  - rewrite seqZ_nil by lia. constructor.
  - rewrite <- (Z2Nat.id n) by lia. generalize (Z.to_nat n) as k.
    intros k. revert m. induction k as [| k IH]; intros m.
    + constructor.
    + rewrite seqZ_cons by lia.
      replace (Z.pred (Z.of_nat (S k))) with (Z.of_nat k) by lia.
      constructor; [apply IH |].
      rewrite Forall_forall. intros y Hy.
      apply elem_of_seqZ in Hy. lia.
Qed.

(** The sweep of [handle_scan_servos] over a range. *)
Lemma scan_sweep_run h (id_min id_max : Z) (w : World) :
  scan_sweep sdk h id_min id_max w
  = (Ok (responding sdk h w (seqZ id_min (id_max + 1 - id_min))),
     w ++ (Ping h <$> seqZ id_min (id_max + 1 - id_min))).
Proof. unfold scan_sweep. rewrite sweep_run. reflexivity. Qed.

Lemma take_seqZ (m n : Z) (i : nat) :
  Z.of_nat i ≤ n → take i (seqZ m n) = seqZ m (Z.of_nat i).
Proof.
  intros Hi. replace n with (Z.of_nat i + (n - Z.of_nat i)) by lia.
  rewrite seqZ_app by lia.
  rewrite take_app_length'; [done |]. rewrite length_seqZ. lia.
Qed.

(** Which ids a sweep over [id_min .. id_max] finds. *)
Lemma responding_range h (id_min id_max : Z) (w : World) id :
  id ∈ responding sdk h w (seqZ id_min (id_max + 1 - id_min)) ↔
  id_min ≤ id ≤ id_max
  ∧ responds sdk (w ++ (Ping h <$> seqZ id_min (id - id_min))) h id = true.
Proof.
  rewrite responding_elem_of. split.
  - intros (i & Hi & Hr). apply lookup_seqZ in Hi as [-> Hi].
    rewrite take_seqZ in Hr by lia.
    replace (id_min + Z.of_nat i - id_min) with (Z.of_nat i) by lia.
    split; [lia | exact Hr].
  - intros [Hid Hr]. exists (Z.to_nat (id - id_min)).
    rewrite take_seqZ by lia. rewrite Z2Nat.id by lia.
    split; [| exact Hr]. apply lookup_seqZ. lia.
Qed.

(** A sweep in which no id of the range answers its probe finds nothing. *)
Lemma responding_range_none h (id_min id_max : Z) (w : World) :
  (∀ id, id_min ≤ id ≤ id_max →
         responds sdk (w ++ (Ping h <$> seqZ id_min (id - id_min))) h id
         = false) →
  responding sdk h w (seqZ id_min (id_max + 1 - id_min)) = [].
Proof.
  intros Hnone.
  destruct (responding sdk h w (seqZ id_min (id_max + 1 - id_min)))
    as [| id found] eqn:Hfound; [reflexivity |].
  assert (Hin : id ∈ responding sdk h w (seqZ id_min (id_max + 1 - id_min)))
    by (rewrite Hfound; left).
  apply responding_range in Hin as [Hid Hr].
  rewrite (Hnone id Hid) in Hr. discriminate.
Qed.

(** A reversed range is swapped, so the swept range is never reversed. *)
Lemma scan_range_ordered message id_min id_max :
  scan_range SCAN_ID_MIN SCAN_ID_MAX int_of_str message = (id_min, id_max) →
  id_min ≤ id_max.
Proof.
  unfold scan_range.
  destruct (match int_or int_of_str (msg_idMin message) SCAN_ID_MIN,
                  int_or int_of_str (msg_idMax message) SCAN_ID_MAX with
            | Some lo, Some hi => (lo, hi)
            | _, _ => (SCAN_ID_MIN, SCAN_ID_MAX)
            end) as [lo hi].
  destruct (Z.gtb_spec lo hi); intros [= <- <-]; lia.
Qed.

(** An id answers a probe exactly when the ping returns a success status
    without device error. *)
Lemma responds_true (w : World) h id :
  responds sdk w h id = true ↔
  ∃ model, sdk_ping sdk w h id = Ret (model, COMM_SUCCESS sdk, 0).
Proof.
  unfold responds. destruct (sdk_ping sdk w h id) as [[[m cr] e] | msg].
  - rewrite andb_true_iff, !Z.eqb_eq. split.
    + intros [-> ->]. eauto.
    + intros [model [= _ -> ->]]. done.
  - split; [done | intros [model [=]]].
Qed.

(** A scan whose port opens and takes the baud rate: it probes the whole
    range, reports the ids that answered, and closes its port. *)
Lemma handle_scan_servos_run message port baudrate id_min id_max (a : App) :
  msg_port message = Some port → port ≠ "" →
  scan_baudrate DEFAULT_BAUDRATE int_of_str message = baudrate →
  scan_range SCAN_ID_MIN SCAN_ID_MAX int_of_str message = (id_min, id_max) →
  port_ready sdk port baudrate (world a) →
  handle_scan_servos sdk DEFAULT_BAUDRATE SCAN_ID_MIN SCAN_ID_MAX int_of_str
                     message a
  = (Ok tt,
     {| dxl := dxl a; dxl_error_message := dxl_error_message a;
        connection_info := connection_info a;
        outbox := outbox a ++
          [scan_result true
             (scan_message port baudrate id_min id_max
                (responding sdk (length (world a))
                   (scan_opened port baudrate (world a))
                   (seqZ id_min (id_max + 1 - id_min))))
             (responding sdk (length (world a))
                (scan_opened port baudrate (world a))
                (seqZ id_min (id_max + 1 - id_min)))
             (Some (port, baudrate, id_min, id_max))];
        world := scan_opened port baudrate (world a)
                 ++ (Ping (length (world a)) <$>
                       seqZ id_min (id_max + 1 - id_min))
                 ++ [ClosePort (length (world a))] |}).
Proof.
  intros Hport Hne Hb Hrange [Hopen Hbaud].
  destruct a as [d err info out w]. simpl in *.
  unfold handle_scan_servos. rewrite Hport, Hb, Hrange.
  apply String.eqb_neq in Hne. rewrite Hne.
  rewrite bind_run. unfold in_world at 1, PortHandler at 1.
  cbn [world dxl dxl_error_message connection_info outbox].
  unfold try_finally. rewrite bind_run.
  unfold in_world at 1, openPort at 1, sdk_call at 1.
  cbn [world dxl dxl_error_message connection_info outbox].
  rewrite Hopen. cbn [negb]. rewrite bind_run.
  unfold in_world at 1, setBaudRate at 1, sdk_call at 1.
  cbn [world dxl dxl_error_message connection_info outbox].
  rewrite <- app_assoc. simpl app at 1. rewrite Hbaud. cbn [negb].
  rewrite bind_run. unfold in_world at 1.
  cbn [world dxl dxl_error_message connection_info outbox].
  rewrite scan_sweep_run.
  unfold emit, modify, try_except, in_world, closePort, sdk_call.
  cbn [world dxl dxl_error_message connection_info outbox].
  unfold scan_opened. rewrite <- !app_assoc. simpl app.
  destruct (sdk_closePort sdk _ (length w)) as [[] | msg]; reflexivity.
Qed.

(** C9. A scan whose port opens and takes the baud rate probes every id of
    the normalized range [id_min .. id_max] once, in ascending order,
    whatever the earlier probes did, and then closes its port.  The id list
    it reports is in strictly ascending order and holds exactly the ids of
    the range whose probe returned a success status without device error:
    a probe that raises, reports a transport failure or reports a device
    fault only leaves its id out. *)
Theorem scan_reports_responding_ids
    message port baudrate id_min id_max (a : App) :
  msg_port message = Some port → port ≠ "" →
  scan_baudrate DEFAULT_BAUDRATE int_of_str message = baudrate →
  scan_range SCAN_ID_MIN SCAN_ID_MAX int_of_str message = (id_min, id_max) →
  port_ready sdk port baudrate (world a) →
  ∃ (found : list Z) (text : string) (a' : App),
    handle_scan_servos sdk DEFAULT_BAUDRATE SCAN_ID_MIN SCAN_ID_MAX
                       int_of_str message a = (Ok tt, a')
    ∧ outbox a'
      = outbox a ++ [scan_result true text found
                       (Some (port, baudrate, id_min, id_max))]
    ∧ world a'
      = scan_opened port baudrate (world a)
        ++ (Ping (length (world a)) <$> seqZ id_min (id_max + 1 - id_min))
        ++ [ClosePort (length (world a))]
    ∧ StronglySorted Z.lt found
    ∧ ∀ id,
        id ∈ found ↔
        id_min ≤ id ≤ id_max
        ∧ ∃ model,
            sdk_ping sdk
              (scan_opened port baudrate (world a)
               ++ (Ping (length (world a)) <$> seqZ id_min (id - id_min)))
              (length (world a)) id
            = Ret (model, COMM_SUCCESS sdk, 0).
Proof.
  intros Hport Hne Hb Hrange Hready.
  eexists _, _, _.
  split; [apply (handle_scan_servos_run message port baudrate id_min id_max);
          assumption |].
  cbn [outbox world]. split; [reflexivity |]. split; [reflexivity |].
  split; [apply responding_sorted, seqZ_sorted |].
  intros id. rewrite responding_range, responds_true. reflexivity.
Qed.

(** C10. A scan whose port opens and takes the baud rate, and in which no
    id of the swept range [id_min .. id_max] answers its probe (the probe
    raises, or reports a transport failure or a device fault), still
    reports [ok] true, with an empty id list and the message that no servos
    responded on the port, at the baud rate, in the range; and it closes
    its port.  Ids outside the range play no part. *)
Theorem scan_without_responders_succeeds
    message port baudrate id_min id_max (a : App) :
  msg_port message = Some port → port ≠ "" →
  scan_baudrate DEFAULT_BAUDRATE int_of_str message = baudrate →
  scan_range SCAN_ID_MIN SCAN_ID_MAX int_of_str message = (id_min, id_max) →
  port_ready sdk port baudrate (world a) →
  (∀ id, id_min ≤ id ≤ id_max →
         responds sdk
           (scan_opened port baudrate (world a)
            ++ (Ping (length (world a)) <$> seqZ id_min (id - id_min)))
           (length (world a)) id = false) →
  ∃ a' : App,
    handle_scan_servos sdk DEFAULT_BAUDRATE SCAN_ID_MIN SCAN_ID_MAX
                       int_of_str message a = (Ok tt, a')
    ∧ outbox a'
      = outbox a ++
        [scan_result true
           ("No servos responded on " +:+ port +:+ " @ "
              +:+ str_of_Z baudrate +:+ " in range "
              +:+ str_of_Z id_min +:+ "-" +:+ str_of_Z id_max +:+ ".")
           []
           (Some (port, baudrate, id_min, id_max))]
    ∧ world a'
      = scan_opened port baudrate (world a)
        ++ (Ping (length (world a)) <$> seqZ id_min (id_max + 1 - id_min))
        ++ [ClosePort (length (world a))].
Proof.
  intros Hport Hne Hb Hrange Hready Hnone.
  eexists.
  split; [apply (handle_scan_servos_run message port baudrate id_min id_max);
          assumption |].
  cbn [outbox world]. rewrite responding_range_none by exact Hnone.
  split; reflexivity.
Qed.

End Scan.

Lemma scan_reports_responding_ids_witness :
  msg_port scan_1_10 = Some "COM3" ∧ "COM3" ≠ ""
  ∧ scan_baudrate 57600 (λ _, None) scan_1_10 = 57600
  ∧ scan_range 1 252 (λ _, None) scan_1_10 = (1, 10)
  ∧ port_ready (bench_sdk bench_3_7) "COM3" 57600 []
  ∧ ∃ a',
      handle_scan_servos (bench_sdk bench_3_7) 57600 1 252 (λ _, None)
                         scan_1_10 app_idle = (Ok tt, a')
      ∧ outbox a' = [scan_result true "Found IDs: [3, 7]" [3; 7]
                       (Some ("COM3", 57600, 1, 10))].
Proof.
  assert (Hready : port_ready (bench_sdk bench_3_7) "COM3" 57600 [])
    by (split; reflexivity).
  split; [reflexivity |]. split; [discriminate |].
  split; [reflexivity |]. split; [reflexivity |]. split; [exact Hready |].
  destruct (scan_reports_responding_ids (bench_sdk bench_3_7) 57600 1 252
              (λ _, None) scan_1_10 "COM3" 57600 1 10 app_idle eq_refl
              ltac:(discriminate) eq_refl eq_refl Hready)
    as (found & text & a' & Hrun & Hout & _).
  exists a'. split; [exact Hrun |].
  pose proof (f_equal snd Hrun) as Hstate. vm_compute in Hstate.
  rewrite <- Hstate. reflexivity.
Defined.

Lemma scan_without_responders_succeeds_witness :
  msg_port scan_4_6 = Some "COM3" ∧ "COM3" ≠ ""
  ∧ scan_baudrate 57600 (λ _, None) scan_4_6 = 57600
  ∧ scan_range 1 252 (λ _, None) scan_4_6 = (4, 6)
  ∧ port_ready (bench_sdk bench_3_7) "COM3" 57600 []
  ∧ responds (bench_sdk bench_3_7) [] 0 3 = true
  ∧ ∃ a',
      handle_scan_servos (bench_sdk bench_3_7) 57600 1 252 (λ _, None)
                         scan_4_6 app_idle = (Ok tt, a')
      ∧ outbox a'
        = [scan_result true
             "No servos responded on COM3 @ 57600 in range 4-6." []
             (Some ("COM3", 57600, 4, 6))].
Proof.
  assert (Hready : port_ready (bench_sdk bench_3_7) "COM3" 57600 [])
    by (split; reflexivity).
  assert (Hnone : ∀ id, 4 ≤ id ≤ 6 →
             responds (bench_sdk bench_3_7)
               (scan_opened "COM3" 57600 (world app_idle)
                ++ (Ping (length (world app_idle)) <$> seqZ 4 (id - 4)))
               (length (world app_idle)) id = false).
  { intros id Hid.
    assert (Hcases : id = 4 ∨ id = 5 ∨ id = 6) by lia.
    destruct Hcases as [-> | [-> | ->]]; reflexivity. }
  split; [reflexivity |]. split; [discriminate |].
  split; [reflexivity |]. split; [reflexivity |]. split; [exact Hready |].
  split; [reflexivity |].
  destruct (scan_without_responders_succeeds (bench_sdk bench_3_7)
              57600 1 252 (λ _, None) scan_4_6 "COM3" 57600 4 6 app_idle
              eq_refl ltac:(discriminate) eq_refl eq_refl Hready Hnone)
    as (a' & Hrun & Hout & _).
  exists a'. split; [exact Hrun |]. exact Hout.
Defined.

(** ** Command handlers *)

Section Commands.

Context (sdk : SDK).

(** Neither name that [handle_set_pid] calls is an attribute of the
    controller: the class has [set_pid] only. *)
Lemma call_missing_method self (name : string) args (w : World) :
  bool_decide (name ∈ DynamixelController_attributes) = false →
  call_method sdk self name args w
  = (Err (AttributeError ("'DynamixelController' object has no attribute '"
                            +:+ name +:+ "'")), w).
Proof. intros H. unfold call_method. rewrite H. reflexivity. Qed.

(** C6. Against a connected controller, [handle_set_pid] ends with an
    [AttributeError] raised out of the handler, for every message: it emits
    neither the success log nor a failure message, and no gain is written
    to the bus. *)
Theorem handle_set_pid_raises message (a : App) controller :
  dxl a = Some controller →
  handle_set_pid sdk message a
  = (Err (AttributeError
            "'DynamixelController' object has no attribute 'set_position_pid_gains'"),
     a).
Proof.
  intros Hc. destruct a as [d err info out w]. simpl in Hc. subst d.
  unfold handle_set_pid. rewrite bind_run. simpl.
  unfold try_except_DynamixelError. rewrite bind_run.
  unfold in_world at 1. cbn [world].
  rewrite call_missing_method by (vm_compute; reflexivity).
  reflexivity.
Qed.

End Commands.

Lemma handle_set_pid_raises_witness :
  dxl app_connected = Some session_3_7
  ∧ handle_set_pid (bench_sdk bench_healthy) pid_message_3 app_connected
    = (Err (AttributeError
              "'DynamixelController' object has no attribute 'set_position_pid_gains'"),
       app_connected).
Proof.
  split; [reflexivity |].
  apply (handle_set_pid_raises (bench_sdk bench_healthy) pid_message_3
           app_connected session_3_7).
  reflexivity.
Defined.

(** ** Telemetry *)

Section Telemetry.

Context (sdk : SDK).

Lemma read_width_run wd self id addr (w : World) :
  read_width sdk wd self id addr w
  = (match sdk_read sdk w wd (port_handler self) id addr with
     | Ret (v, cr, e) =>
         if (cr =? COMM_SUCCESS sdk) && (e =? 0) then Ok (decode wd v)
         else Err (DynamixelError
                     (failure_text sdk (read_failed id addr) cr e))
     | Throw msg => Err (ForeignError msg)
     end, w ++ [ReadTxRx wd (port_handler self) id addr]).
Proof.
  unfold read_width, readTxRx, sdk_call, failure_text. rewrite bind_run.
  destruct (sdk_read sdk w wd (port_handler self) id addr)
    as [[[v cr] e] | msg]; [| reflexivity].
  rewrite bind_run, check_result_run.
  destruct (cr =? COMM_SUCCESS sdk); simpl; [| reflexivity].
  destruct (e =? 0); reflexivity.
Qed.

Lemma failed_status cr e :
  failed sdk cr e → (cr =? COMM_SUCCESS sdk) && (e =? 0) = false.
Proof.
  intros [H | H]; apply andb_false_iff; [left | right];
    apply Z.eqb_neq; exact H.
Qed.

(** [read_state] is the loop over the field table, followed by the lookup
    of the mode name, inside the [try] block. *)
Lemma read_state_unfold self id :
  read_state sdk self id
  = run_local ∅
      (try_except_DynamixelError
         (read_fields sdk self id telemetry_fields
            (mode ← get_operating_mode;
             set_item "operating_mode_name" (VStr (operating_mode_name mode))))
         (λ exc, set_item "error" (VStr exc))).
Proof. reflexivity. Qed.

Lemma read_field_step self id f fs rest state (w : World) :
  read_fields sdk self id (f :: fs) rest (state, w)
  = match field_reply sdk self id w f with
    | Ret (v, cr, e) =>
        if (cr =? COMM_SUCCESS sdk) && (e =? 0)
        then read_fields sdk self id fs rest
               (<[f_key f := f_conv f (decode (f_width f) v)]> state,
                w ++ [field_call self id f])
        else (Err (DynamixelError
                     (failure_text sdk (read_failed id (f_addr f)) cr e)),
              (state, w ++ [field_call self id f]))
    | Throw msg => (Err (ForeignError msg),
                    (state, w ++ [field_call self id f]))
    end.
Proof.
  simpl. rewrite bind_run. unfold lift_snd. rewrite read_width_run.
  unfold field_reply, field_call.
  destruct (sdk_read sdk w (f_width f) (port_handler self) id (f_addr f))
    as [[[v cr] e] | msg]; [| reflexivity].
  destruct ((cr =? COMM_SUCCESS sdk) && (e =? 0)); reflexivity.
Qed.

(** Fields read without failure are stored, and the block goes on. *)
Lemma read_fields_ok self id fs vs rest state (w : World) :
  reads_ok sdk self id w fs vs →
  read_fields sdk self id fs rest (state, w)
  = rest (store state fs vs, w ++ (field_call self id <$> fs)).
Proof.
  revert vs state w. induction fs as [| f fs IH]; intros vs state w Hok.
  - destruct vs; [| done]. simpl. rewrite app_nil_r. reflexivity.
  - destruct vs as [| v vs]; [done |]. destruct Hok as [Hf Hok].
    rewrite read_field_step, Hf, !Z.eqb_refl. simpl andb. cbv iota.
    rewrite (IH vs _ _ Hok). simpl. rewrite <- app_assoc. reflexivity.
Qed.

(** The block stops at the first failing read: the fields before it are
    stored, the fields after it are not read. *)
Lemma read_fields_stop self id done f more vs rest state (w : World) v cr e :
  reads_ok sdk self id w done vs →
  field_reply sdk self id (w ++ (field_call self id <$> done)) f
    = Ret (v, cr, e) →
  failed sdk cr e →
  read_fields sdk self id (done ++ f :: more) rest (state, w)
  = (Err (DynamixelError (failure_text sdk (read_failed id (f_addr f)) cr e)),
     (store state done vs, w ++ (field_call self id <$> done ++ [f]))).
Proof.
  revert vs state w. induction done as [| g done IH]; intros vs state w Hok Hf Hx.
  - destruct vs; [| done]. simpl in Hf. rewrite app_nil_r in Hf.
    change ([] ++ f :: more) with (f :: more).
    rewrite read_field_step, Hf, (failed_status _ _ Hx). reflexivity.
  - destruct vs as [| u vs]; [done |]. destruct Hok as [Hg Hok].
    change ((g :: done) ++ f :: more) with (g :: (done ++ f :: more)).
    rewrite read_field_step, Hg, !Z.eqb_refl. simpl andb. cbv iota.
    rewrite fmap_cons, cons_middle, app_assoc in Hf.
    rewrite (IH vs _ _ Hok Hf Hx).
    simpl. rewrite <- app_assoc. reflexivity.
Qed.

(** [read_state] when the read of [f] fails after the fields [done]. *)
Lemma read_state_failure_run self id (w : World) done f more vs v cr e :
  telemetry_fields = done ++ f :: more →
  reads_ok sdk self id w done vs →
  field_reply sdk self id (w ++ (field_call self id <$> done)) f
    = Ret (v, cr, e) →
  failed sdk cr e →
  read_state sdk self id w
  = (Ok (<["error" :=
             VStr (failure_text sdk (read_failed id (f_addr f)) cr e)]>
           (store ∅ done vs)),
     w ++ (field_call self id <$> done ++ [f])).
Proof.
  intros Hsplit Hok Hf Hx.
  rewrite read_state_unfold. unfold run_local, try_except_DynamixelError.
  rewrite Hsplit.
  rewrite (read_fields_stop self id done f more vs _ ∅ w v cr e Hok Hf Hx).
  reflexivity.
Qed.

(** C1, as the code has it. When a telemetry read fails with a device
    error (transport failure or device fault) after the fields [done] were
    read, [read_state] reads no further field and returns a state that
    holds the error message together with the fields read before the
    failure, and nothing else. *)
Theorem read_state_stops_at_failure self id (w : World)
    done f more vs v cr e :
  telemetry_fields = done ++ f :: more →
  reads_ok sdk self id w done vs →
  field_reply sdk self id (w ++ (field_call self id <$> done)) f
    = Ret (v, cr, e) →
  failed sdk cr e →
  read_state sdk self id w
  = (Ok (<["error" :=
             VStr (failure_text sdk (read_failed id (f_addr f)) cr e)]>
           (store ∅ done vs)),
     w ++ (field_call self id <$> done ++ [f])).
Proof. apply read_state_failure_run. Qed.

(** When the very first read fails, the state holds the error only. *)
Lemma read_state_first_read_fails self id (w : World) v cr e :
  sdk_read sdk w W1 (port_handler self) id ADDR_OPERATING_MODE
    = Ret (v, cr, e) →
  failed sdk cr e →
  (read_state sdk self id w).1
  = Ok {[ "error" :=
            VStr (failure_text sdk (read_failed id ADDR_OPERATING_MODE)
                               cr e) ]}.
Proof.
  intros Hf Hx.
  rewrite (read_state_failure_run self id w [] _ _ [] v cr e eq_refl I);
    [reflexivity | rewrite app_nil_r; exact Hf | exact Hx].
Qed.


Lemma dom_store state (fs : list Field) vs :
  length fs = length vs →
  dom (store state fs vs) = dom state ∪ list_to_set (f_key <$> fs).
Proof.
  revert state vs. induction fs as [| f fs IH]; intros state vs Hlen;
    destruct vs as [| v vs]; try discriminate; simpl.
  - set_solver.
  - rewrite IH by (simpl in Hlen; lia). rewrite dom_insert_L. set_solver.
Qed.

Lemma reads_ok_length self id (w : World) fs vs :
  reads_ok sdk self id w fs vs → length fs = length vs.
Proof.
  revert w vs. induction fs as [| f fs IH]; intros w [| v vs] H;
    simpl in *; try done.
  destruct H as [_ H]. f_equal. eapply IH, H.
Qed.






End Telemetry.

(** Servo 7 of the bench, read from a fresh trace. *)
Lemma read_state_servo_7 :
  read_state (bench_sdk bench_3_7) session_3_7 7 []
  = (Ok (<["error" := VStr
             "Failed to read (ID 7, addr 124): [RxPacketError] Hardware error occurred."]>
           (<["torque_enabled" := VBool true]>
              (<["operating_mode" := VInt 3]> ∅))),
     [ReadTxRx W1 0 7 ADDR_OPERATING_MODE; ReadTxRx W1 0 7 ADDR_TORQUE_ENABLE;
      ReadTxRx W2 0 7 ADDR_PRESENT_PWM]).
Proof. vm_compute. reflexivity. Qed.

Lemma read_state_stops_at_failure_witness :
  telemetry_fields
  = take 2 telemetry_fields ++
    {| f_key := "present_pwm"; f_width := W2; f_addr := ADDR_PRESENT_PWM;
       f_conv := VInt |} :: drop 3 telemetry_fields
  ∧ reads_ok (bench_sdk bench_3_7) session_3_7 7 []
             (take 2 telemetry_fields) [3; 1]
  ∧ failed (bench_sdk bench_3_7) 0 128
  ∧ read_state (bench_sdk bench_3_7) session_3_7 7 []
    = (Ok (<["error" := VStr
               "Failed to read (ID 7, addr 124): [RxPacketError] Hardware error occurred."]>
             (<["torque_enabled" := VBool true]>
                (<["operating_mode" := VInt 3]> ∅))),
       [ReadTxRx W1 0 7 ADDR_OPERATING_MODE; ReadTxRx W1 0 7 ADDR_TORQUE_ENABLE;
        ReadTxRx W2 0 7 ADDR_PRESENT_PWM]).
Proof.
  assert (Hok : reads_ok (bench_sdk bench_3_7) session_3_7 7 []
                  (take 2 telemetry_fields) [3; 1])
    by (repeat split).
  assert (Hx : failed (bench_sdk bench_3_7) 0 128) by (right; discriminate).
  split; [reflexivity |]. split; [exact Hok |]. split; [exact Hx |].
  exact (read_state_stops_at_failure (bench_sdk bench_3_7) session_3_7 7 []
           (take 2 telemetry_fields) _ (drop 3 telemetry_fields)
           [3; 1] 1 0 128 eq_refl Hok eq_refl Hx).
Defined.

(** C1, as stated, fails: servo 7 reports a device error when its present
    PWM, the third field, is read; the state returned carries the error and
    also the operating mode and the torque flag read before the failure, so
    it is not a state holding the error message alone. *)
Lemma read_state_error_only_counterexample :
  ∃ state w',
    read_state (bench_sdk bench_3_7) session_3_7 7 [] = (Ok state, w')
    ∧ is_Some (state !! "error")
    ∧ state !! "operating_mode" = Some (VInt 3)
    ∧ state !! "torque_enabled" = Some (VBool true)
    ∧ ¬ error_only state.
Proof.
  eexists _, _. split; [exact read_state_servo_7 |].
  split; [rewrite lookup_insert_eq; eauto |].
  split; [vm_compute; reflexivity |].
  split; [vm_compute; reflexivity |].
  intros [msg Hmsg].
  apply (f_equal (λ m : gmap string PyVal, m !! "operating_mode")) in Hmsg.
  rewrite lookup_singleton_ne in Hmsg by done.
  vm_compute in Hmsg. discriminate.
Qed.


(** * Further properties *)

(** ** Packet codec on arbitrary values *)

(** X1. Writing any integer and reading it back gives the representable
    value that differs from it by a multiple of [2 ^ bits]: a value outside
    the range of the field wraps around, it is never rejected. *)
Theorem codec_wraps (w : Width) (v : Z) :
  representable w (decode w (encode w v))
  ∧ ∃ k, decode w (encode w v) = v + k * 2 ^ width_bits w.
Proof.
  pose proof (encode_range w v) as Hr.
  rewrite decode_wire by exact Hr. rewrite encode_mod in *.
  assert (Hdiv : v mod 2 ^ width_bits w
                 = v + (- (v / 2 ^ width_bits w)) * 2 ^ width_bits w).
  { rewrite Z.mod_eq by (destruct w; discriminate). ring. }
  destruct w; unfold representable, width_bits in *.
  - split; [exact Hr | eauto].
  - change (16 - 1) with 15.
    change (2 ^ 15) with 32768. change (2 ^ 16) with 65536 in *.
    destruct (Z.leb_spec 32768 (v mod 65536)).
    + split; [lia |]. exists (- (v / 65536) - 1). lia.
    + split; [lia | eauto].
  - change (32 - 1) with 31.
    change (2 ^ 31) with 2147483648. change (2 ^ 32) with 4294967296 in *.
    destruct (Z.leb_spec 2147483648 (v mod 4294967296)).
    + split; [lia |]. exists (- (v / 4294967296) - 1). lia.
    + split; [lia | eauto].
Qed.

(** X2. Every wire value of the right width decodes to a representable
    value whose encoding is that wire value again: on the wire range the
    read path loses nothing. *)
Theorem codec_wire_round_trip (w : Width) (raw : Z) :
  0 ≤ raw < 2 ^ width_bits w →
  representable w (decode w raw) ∧ encode w (decode w raw) = raw.
Proof.
  intros Hr. rewrite decode_wire by exact Hr. rewrite encode_mod.
  destruct w; unfold representable, width_bits in *.
  - split; [exact Hr | apply Z.mod_small; exact Hr].
  - change (16 - 1) with 15.
    change (2 ^ 15) with 32768. change (2 ^ 16) with 65536 in *.
    destruct (Z.leb_spec 32768 raw).
    + split; [lia |]. symmetry.
      apply (Z.mod_unique (raw - 65536) 65536 (-1)); lia.
    + split; [lia | apply Z.mod_small; lia].
  - change (32 - 1) with 31.
    change (2 ^ 31) with 2147483648. change (2 ^ 32) with 4294967296 in *.
    destruct (Z.leb_spec 2147483648 raw).
    + split; [lia |]. symmetry.
      apply (Z.mod_unique (raw - 4294967296) 4294967296 (-1)); lia.
    + split; [lia | apply Z.mod_small; lia].
Qed.

Lemma codec_wire_round_trip_witness :
  0 ≤ 65535 < 2 ^ width_bits W2
  ∧ representable W2 (decode W2 65535)
  ∧ encode W2 (decode W2 65535) = 65535.
Proof.
  split; [simpl; lia |]. apply (codec_wire_round_trip W2 65535). simpl; lia.
Defined.

(** ** Gains, and the operating mode without automatic torque *)

Section Gains.

Context (sdk : SDK).

(** X3. [set_pid] writes exactly the gains that are not [None], in the
    order position P, I, D, velocity P, I, each as a 2-byte write.
    Whatever the bus answers, what has been written when the call ends is
    an initial part of that sequence; a call that returns normally has
    written all of it; and the call does return normally when the bus takes
    every write. *)
Theorem set_pid_writes_present_in_order self id
    (position_p position_i position_d velocity_p velocity_i : option Z) :
  issues sdk
    (set_pid sdk self id position_p position_i position_d
             velocity_p velocity_i)
    (pid_writes self id position_p position_i position_d
                velocity_p velocity_i).
Proof.
  unfold set_pid, pid_writes, _write2.
  repeat apply issues_seq; apply issues_if_not_None.
Qed.

(** X4. Without [auto_torque], [set_operating_mode] issues the mode write
    and nothing else: the torque register is not touched, and the call
    returns normally exactly as the mode write does. *)
Theorem set_operating_mode_without_auto_torque self id mode (w : World) :
  (set_operating_mode sdk self id mode false w).2 = w ++ [mode_call self id mode]
  ∧ ((set_operating_mode sdk self id mode false w).1 = Ok tt ↔
     accepted sdk w (mode_call self id mode)).
Proof.
  change (set_operating_mode sdk self id mode false w)
    with (match write_width sdk W1 self id ADDR_OPERATING_MODE mode w with
          | (Ok _, s') => (Ok tt, s')
          | (Err e, s') => (Err e, s')
          end).
  pose proof (write_width_trace sdk W1 self id ADDR_OPERATING_MODE mode w)
    as Ht.
  fold (mode_call self id mode) in Ht.
  unfold accepted, mode_call, write_reply.
  assert (Hres : (write_width sdk W1 self id ADDR_OPERATING_MODE mode w).1
                 = Ok tt ↔
                 sdk_write sdk w W1 (port_handler self) id
                           ADDR_OPERATING_MODE (encode W1 mode)
                 = Ret (COMM_SUCCESS sdk, 0)).
  { unfold write_width, writeTxRx, sdk_call. rewrite bind_run.
    destruct (sdk_write sdk w W1 (port_handler self) id ADDR_OPERATING_MODE
                (encode W1 mode)) as [[cr e] | msg]; [| done].
    rewrite check_result_run.
    destruct (Z.eqb_spec cr (COMM_SUCCESS sdk)) as [-> | Hcr]; simpl.
    - destruct (Z.eqb_spec e 0) as [-> | He]; simpl; [done |].
      split; [done | intros [= ->]; done].
    - split; [done | intros [= -> _]; done]. }
  destruct (write_width sdk W1 self id ADDR_OPERATING_MODE mode w)
    as [[[] | x] w1]; simpl in *; subst w1.
  - split; [reflexivity |]. split; [| done].
    intros _. f_equal. apply Hres. reflexivity.
  - split; [reflexivity |]. split; [done |].
    intros [= H]. apply Hres in H. discriminate.
Qed.

End Gains.

Lemma set_pid_writes_present_in_order_witness :
  accepts_all_writes (bench_sdk bench_healthy)
  ∧ set_pid (bench_sdk bench_healthy) session_3_7 3
            (Some 800) None (Some 0) None (Some 1920) []
    = (Ok tt, [write_call W2 session_3_7 3 ADDR_POSITION_P_GAIN 800;
               write_call W2 session_3_7 3 ADDR_POSITION_D_GAIN 0;
               write_call W2 session_3_7 3 ADDR_VELOCITY_I_GAIN 1920]).
Proof.
  assert (Hacc : accepts_all_writes (bench_sdk bench_healthy))
    by (intros w wd h id addr value; reflexivity).
  split; [exact Hacc |].
  destruct (set_pid_writes_present_in_order (bench_sdk bench_healthy)
              session_3_7 3 (Some 800) None (Some 0) None (Some 1920) [])
    as (_ & _ & Hrun).
  exact (Hrun Hacc).
Defined.

(** ** Building, replacing and dropping a session *)

Section Sessions.

Context (sdk : SDK).

Lemma init_pings_answered self (l : list Z) (w : World) :
  answers_pings sdk (port_handler self) →
  for_each l (λ dxl_id,
    try_except_DynamixelError
      (get_model_number sdk self dxl_id ;; mret tt)
      (λ _, mret tt)) w
  = (Ok tt, w ++ (Ping (port_handler self) <$> l)).
Proof.
  intros Hans. revert w. induction l as [| id l IH]; intros w; simpl.
  - rewrite app_nil_r. reflexivity.
  - rewrite bind_run. unfold try_except_DynamixelError at 1.
    rewrite bind_run.
    unfold get_model_number, ping, sdk_call. rewrite bind_run.
    destruct (Hans w id) as (m & cr & e & ->). rewrite bind_run.
    destruct (negb (cr =? COMM_SUCCESS sdk)); simpl;
      [rewrite IH, <- app_assoc; reflexivity |].
    destruct (negb (e =? 0)); simpl; rewrite IH, <- app_assoc; reflexivity.
Qed.

(** The constructor on a port that opens and takes the baud rate. *)
Lemma init_ready port baud l (w : World) :
  port_ready sdk port baud w →
  answers_pings sdk (length w) →
  __init__ sdk port baud l w
  = (Ok {| port_name := port; baudrate := baud; ids := l;
           port_handler := length w |},
     scan_opened port baud w ++ (Ping (length w) <$> l)).
Proof.
  intros [Hopen Hbaud] Hans.
  unfold __init__, PortHandler. rewrite !bind_run.
  unfold openPort, sdk_call. rewrite Hopen. cbn [negb].
  rewrite bind_run. unfold setBaudRate, sdk_call.
  rewrite <- app_assoc. simpl app at 1. rewrite Hbaud. cbn [negb].
  rewrite bind_run.
  set (self := {| port_name := port; baudrate := baud; ids := l;
                  port_handler := length w |}).
  match goal with
  | |- context [for_each l ?body ?tr] =>
      pose proof (init_pings_answered self l tr Hans) as Hp;
      change (for_each l _ tr) with (for_each l body tr) in Hp;
      rewrite Hp
  end.
  unfold scan_opened. cbn [ret port_handler self].
  rewrite <- !app_assoc. reflexivity.
Qed.

(** X5. When the port opens and takes the baud rate, and every probe is
    answered by a status triple, building a session succeeds with the
    requested port, baud rate and ids, whether or not any of the ids is on
    the bus: the constructor creates a handler, opens it, sets the baud
    rate, pings every id once in the order given, and does nothing else. *)
Theorem session_construction_pings_every_id port baud l (w : World) :
  port_ready sdk port baud w →
  answers_pings sdk (length w) →
  __init__ sdk port baud l w
  = (Ok {| port_name := port; baudrate := baud; ids := l;
           port_handler := length w |},
     scan_opened port baud w ++ (Ping (length w) <$> l)).
Proof. apply init_ready. Qed.

Lemma init_open_failure port baud l (w : World) :
  sdk_openPort sdk (w ++ [NewPortHandler port]) (length w) = Ret false →
  __init__ sdk port baud l w
  = (Err (DynamixelError ("Failed to open port " +:+ port)),
     w ++ [NewPortHandler port; OpenPort (length w)]).
Proof.
  intros Hopen. unfold __init__, PortHandler. rewrite !bind_run.
  unfold openPort, sdk_call. rewrite Hopen. cbn [negb].
  unfold mthrow, M_throw, raise. rewrite <- app_assoc. reflexivity.
Qed.

Lemma init_baud_failure port baud l (w : World) :
  sdk_openPort sdk (w ++ [NewPortHandler port]) (length w) = Ret true →
  sdk_setBaudRate sdk (w ++ [NewPortHandler port; OpenPort (length w)])
                  (length w) baud = Ret false →
  __init__ sdk port baud l w
  = (Err (DynamixelError ("Failed to set baudrate " +:+ str_of_Z baud
                            +:+ " on " +:+ port)),
     scan_opened port baud w).
Proof.
  intros Hopen Hbaud. unfold __init__, PortHandler. rewrite !bind_run.
  unfold openPort, sdk_call. rewrite Hopen. cbn [negb].
  rewrite bind_run. unfold setBaudRate, sdk_call.
  rewrite <- app_assoc. simpl app at 1. rewrite Hbaud. cbn [negb].
  unfold mthrow, M_throw, raise, scan_opened.
  rewrite <- app_assoc. reflexivity.
Qed.

(** [connect_controller] in terms of what the constructor does once the
    session that was active has been closed. *)
Lemma connect_controller_run port baud l (a : App) :
  connect_controller sdk port baud l a
  = match __init__ sdk port baud l (world a ++ closing a) with
    | (Ok controller, w') =>
        (Ok (true, "Connected successfully."),
         {| dxl := Some controller; dxl_error_message := None;
            connection_info := {| info_port := Some port;
                                  info_baudrate := Some baud;
                                  info_ids := l |};
            outbox := outbox a; world := w' |})
    | (Err e, w') =>
        (Ok (false, "Failed to connect: " +:+ str_of_exn e),
         {| dxl := None; dxl_error_message := Some (str_of_exn e);
            connection_info := connection_info a;
            outbox := outbox a; world := w' |})
    end.
Proof.
  destruct a as [[previous |] err info out w]; unfold closing;
    cbn [dxl world dxl_error_message connection_info outbox].
  - unfold connect_controller. rewrite bind_run. simpl.
    rewrite bind_run, bind_run.
    unfold try_except at 1. unfold in_world at 1. rewrite close_run.
    cbn [world dxl dxl_error_message connection_info outbox ret set_dxl
         modify].
    unfold try_except, in_world. rewrite bind_run.
    cbn [world dxl dxl_error_message connection_info outbox].
    destruct (__init__ sdk port baud l
                (w ++ [ClosePort (port_handler previous)]))
      as [[c | e] w']; reflexivity.
  - unfold connect_controller. rewrite bind_run. simpl.
    rewrite bind_run.
    cbn [world dxl dxl_error_message connection_info outbox ret].
    unfold try_except, in_world. rewrite bind_run.
    cbn [world dxl dxl_error_message connection_info outbox].
    rewrite app_nil_r.
    destruct (__init__ sdk port baud l w) as [[c | e] w']; reflexivity.
Qed.

(** X6. Connecting to a port that does not open never raises: it returns
    [(False, "Failed to connect: Failed to open port <port>")], leaves no
    session active, records the failure as the last error and keeps the
    connection info as it was.  On the bus it closes the session that was
    active, if any, creates a handler and tries to open it, and nothing
    else. *)
Theorem connect_controller_port_does_not_open port baud l (a : App) :
  sdk_openPort sdk (world a ++ closing a ++ [NewPortHandler port])
               (length (world a ++ closing a)) = Ret false →
  connect_controller sdk port baud l a
  = (Ok (false, "Failed to connect: Failed to open port " +:+ port),
     {| dxl := None;
        dxl_error_message := Some ("Failed to open port " +:+ port);
        connection_info := connection_info a;
        outbox := outbox a;
        world := world a ++ closing a
                 ++ [NewPortHandler port;
                     OpenPort (length (world a ++ closing a))] |}).
Proof.
  intros Hopen. rewrite connect_controller_run.
  rewrite init_open_failure by (rewrite <- app_assoc; exact Hopen).
  rewrite <- app_assoc. reflexivity.
Qed.

(** X7. Connecting to a port that opens but does not take the baud rate
    returns [(False, "Failed to connect: Failed to set baudrate <baud> on
    <port>")] and leaves no session active; the port it opened is not
    closed: the trace ends with the baud-rate call. *)
Theorem connect_controller_baud_not_taken port baud l (a : App) :
  sdk_openPort sdk (world a ++ closing a ++ [NewPortHandler port])
               (length (world a ++ closing a)) = Ret true →
  sdk_setBaudRate sdk
    (world a ++ closing a
     ++ [NewPortHandler port; OpenPort (length (world a ++ closing a))])
    (length (world a ++ closing a)) baud = Ret false →
  connect_controller sdk port baud l a
  = (Ok (false, "Failed to connect: Failed to set baudrate "
                  +:+ str_of_Z baud +:+ " on " +:+ port),
     {| dxl := None;
        dxl_error_message := Some ("Failed to set baudrate "
                                     +:+ str_of_Z baud +:+ " on " +:+ port);
        connection_info := connection_info a;
        outbox := outbox a;
        world := scan_opened port baud (world a ++ closing a) |}).
Proof.
  intros Hopen Hbaud. rewrite connect_controller_run.
  rewrite init_baud_failure by (rewrite <- app_assoc; assumption).
  reflexivity.
Qed.

(** X8. When the port opens and takes the baud rate and every probe is
    answered, connecting succeeds whether or not a session was active and
    whether or not any id is on the bus: the new session is active on a
    fresh handler, the last error is cleared, the connection info is the
    requested one, and the bus saw the close of the previous session, if
    any, then the handler, the open, the baud rate and one ping per id. *)
Theorem connect_controller_succeeds port baud l (a : App) :
  port_ready sdk port baud (world a ++ closing a) →
  answers_pings sdk (length (world a ++ closing a)) →
  connect_controller sdk port baud l a
  = (Ok (true, "Connected successfully."),
     {| dxl := Some {| port_name := port; baudrate := baud; ids := l;
                       port_handler := length (world a ++ closing a) |};
        dxl_error_message := None;
        connection_info := {| info_port := Some port;
                              info_baudrate := Some baud;
                              info_ids := l |};
        outbox := outbox a;
        world := scan_opened port baud (world a ++ closing a)
                 ++ (Ping (length (world a ++ closing a)) <$> l) |}).
Proof.
  intros Hready Hans. rewrite connect_controller_run.
  rewrite (init_ready port baud l _ Hready Hans).
  reflexivity.
Qed.

(** [disconnect_controller] on any state. *)
Lemma disconnect_controller_run (a : App) :
  disconnect_controller sdk a
  = (Ok tt,
     {| dxl := None; dxl_error_message := dxl_error_message a;
        connection_info := no_connection;
        outbox := outbox a; world := world a ++ closing a |}).
Proof.
  destruct a as [[current |] err info out w]; unfold closing;
    cbn [dxl world dxl_error_message connection_info outbox].
  - unfold disconnect_controller. rewrite bind_run. simpl.
    rewrite bind_run, bind_run.
    unfold try_except at 1. unfold in_world at 1. rewrite close_run.
    reflexivity.
  - unfold disconnect_controller. rewrite bind_run. simpl.
    rewrite app_nil_r. reflexivity.
Qed.

(** X9. Disconnecting never raises, also when closing the port raises.  It
    calls [closePort] on the handler of the active session once, or
    nothing when no session is active; afterwards no session is active and
    the connection info is empty.  The last error message is kept and no
    event is emitted. *)
Theorem disconnect_controller_closes_session (a : App) :
  disconnect_controller sdk a
  = (Ok tt,
     {| dxl := None; dxl_error_message := dxl_error_message a;
        connection_info := no_connection;
        outbox := outbox a; world := world a ++ closing a |}).
Proof. apply disconnect_controller_run. Qed.

(** X10. Disconnecting twice is the same as disconnecting once: the second
    call finds no session, touches nothing on the bus and changes no
    state. *)
Theorem disconnect_controller_twice (a : App) :
  (disconnect_controller sdk ;; disconnect_controller sdk) a
  = disconnect_controller sdk a.
Proof.
  rewrite bind_run, !disconnect_controller_run.
  cbn [dxl world dxl_error_message connection_info outbox closing].
  rewrite app_nil_r. reflexivity.
Qed.

(** X11. A session that is connected and then disconnected is opened once
    and closed once: after the disconnect no session is active, the
    connection info is empty, no error is recorded, and the last call on
    the bus is the [closePort] of the handler that the connect created. *)
Theorem connect_then_disconnect port baud l (a : App) :
  port_ready sdk port baud (world a ++ closing a) →
  answers_pings sdk (length (world a ++ closing a)) →
  (connect_controller sdk port baud l ;; disconnect_controller sdk) a
  = (Ok tt,
     {| dxl := None; dxl_error_message := None;
        connection_info := no_connection;
        outbox := outbox a;
        world := scan_opened port baud (world a ++ closing a)
                 ++ (Ping (length (world a ++ closing a)) <$> l)
                 ++ [ClosePort (length (world a ++ closing a))] |}).
Proof.
  intros Hready Hans. rewrite bind_run, connect_controller_run.
  rewrite (init_ready port baud l _ Hready Hans).
  rewrite disconnect_controller_run.
  cbn [dxl world dxl_error_message connection_info outbox closing
       port_handler].
  rewrite <- !app_assoc. reflexivity.
Qed.

(** C4. Connecting while a session is active never raises.  It first
    calls [closePort] on the active session's handler, whatever that call
    answers or raises, then builds the new session: it creates a new
    handler and tries to open it, and from then on only talks through the
    new handler.  The outcome is that of the constructor.  When it
    succeeds, which it does when the port opens, takes the baud rate and
    every probe is answered, the active session is exactly the requested
    one (its port, baud rate and ids, on the new handler), the last error
    is cleared and the connection info is the requested one.  When it
    fails, as it does when the port does not open or does not take the
    baud rate, no session is active and the failure message is recorded
    and returned. *)
Theorem connect_controller_replaces port baud l (a : App) previous :
  dxl a = Some previous →
  connect_controller sdk port baud l a
  = match __init__ sdk port baud l
            (world a ++ [ClosePort (port_handler previous)]) with
    | (Ok _, w') =>
        (Ok (true, "Connected successfully."),
         {| dxl := Some {| port_name := port; baudrate := baud; ids := l;
                           port_handler := S (length (world a)) |};
            dxl_error_message := None;
            connection_info := {| info_port := Some port;
                                  info_baudrate := Some baud;
                                  info_ids := l |};
            outbox := outbox a; world := w' |})
    | (Err e, w') =>
        (Ok (false, "Failed to connect: " +:+ str_of_exn e),
         {| dxl := None; dxl_error_message := Some (str_of_exn e);
            connection_info := connection_info a;
            outbox := outbox a; world := w' |})
    end
  ∧ (∃ rest,
       (__init__ sdk port baud l
                 (world a ++ [ClosePort (port_handler previous)])).2
       = world a ++ [ClosePort (port_handler previous); NewPortHandler port;
                     OpenPort (S (length (world a)))] ++ rest
       ∧ Forall (λ c, call_handle c = Some (S (length (world a)))) rest)
  ∧ (port_ready sdk port baud
                (world a ++ [ClosePort (port_handler previous)]) →
     answers_pings sdk (S (length (world a))) →
     connect_controller sdk port baud l a
     = (Ok (true, "Connected successfully."),
        {| dxl := Some {| port_name := port; baudrate := baud; ids := l;
                          port_handler := S (length (world a)) |};
           dxl_error_message := None;
           connection_info := {| info_port := Some port;
                                 info_baudrate := Some baud;
                                 info_ids := l |};
           outbox := outbox a;
           world := world a
                    ++ [ClosePort (port_handler previous);
                        NewPortHandler port;
                        OpenPort (S (length (world a)));
                        SetBaudRate (S (length (world a))) baud]
                    ++ (Ping (S (length (world a))) <$> l) |}))
  ∧ (sdk_openPort sdk
       (world a ++ [ClosePort (port_handler previous); NewPortHandler port])
       (S (length (world a))) = Ret false →
     connect_controller sdk port baud l a
     = (Ok (false, "Failed to connect: Failed to open port " +:+ port),
        {| dxl := None;
           dxl_error_message := Some ("Failed to open port " +:+ port);
           connection_info := connection_info a;
           outbox := outbox a;
           world := world a
                    ++ [ClosePort (port_handler previous);
                        NewPortHandler port;
                        OpenPort (S (length (world a)))] |}))
  ∧ (sdk_openPort sdk
       (world a ++ [ClosePort (port_handler previous); NewPortHandler port])
       (S (length (world a))) = Ret true →
     sdk_setBaudRate sdk
       (world a ++ [ClosePort (port_handler previous); NewPortHandler port;
                    OpenPort (S (length (world a)))])
       (S (length (world a))) baud = Ret false →
     connect_controller sdk port baud l a
     = (Ok (false, "Failed to connect: Failed to set baudrate "
                     +:+ str_of_Z baud +:+ " on " +:+ port),
        {| dxl := None;
           dxl_error_message := Some ("Failed to set baudrate "
                                        +:+ str_of_Z baud +:+ " on "
                                        +:+ port);
           connection_info := connection_info a;
           outbox := outbox a;
           world := world a
                    ++ [ClosePort (port_handler previous);
                        NewPortHandler port;
                        OpenPort (S (length (world a)));
                        SetBaudRate (S (length (world a))) baud] |})).
Proof.
  intros Hd.
  assert (Hclosing : closing a = [ClosePort (port_handler previous)])
    by (unfold closing; rewrite Hd; reflexivity).
  assert (Hlen : length (world a ++ [ClosePort (port_handler previous)])
                 = S (length (world a)))
    by (rewrite length_app; simpl; lia).
  assert (Happ1 : world a ++ [ClosePort (port_handler previous);
                              NewPortHandler port]
                  = (world a ++ [ClosePort (port_handler previous)])
                    ++ [NewPortHandler port])
    by (rewrite <- app_assoc; reflexivity).
  assert (Happ2 : world a ++ [ClosePort (port_handler previous);
                              NewPortHandler port;
                              OpenPort (S (length (world a)))]
                  = (world a ++ [ClosePort (port_handler previous)])
                    ++ [NewPortHandler port;
                        OpenPort (S (length (world a)))])
    by (rewrite <- app_assoc; reflexivity).
  pose proof (connect_controller_run port baud l a) as Hrun.
  rewrite Hclosing in Hrun.
  destruct (init_shape sdk port baud l
              (world a ++ [ClosePort (port_handler previous)]))
    as (r & rest & Hinit & Hrest & Hsession).
  rewrite Hlen in Hinit, Hrest, Hsession.
  split_and!.
  - rewrite Hrun, Hinit. destruct r as [c | e]; [| reflexivity].
    rewrite (Hsession c eq_refl). reflexivity.
  - exists rest. rewrite Hinit. cbn [snd].
    split; [rewrite <- app_assoc; reflexivity | exact Hrest].
  - intros Hready Hans. rewrite <- Hlen in Hans.
    rewrite Hrun, (init_ready port baud l _ Hready Hans).
    unfold scan_opened. rewrite Hlen, <- !app_assoc. reflexivity.
  - intros Hopen. rewrite Happ1, <- Hlen in Hopen.
    rewrite Hrun, (init_open_failure port baud l _ Hopen).
    rewrite Hlen, <- !app_assoc. reflexivity.
  - intros Hopen Hbaud.
    rewrite Happ1, <- Hlen in Hopen. rewrite Happ2, <- Hlen in Hbaud.
    rewrite Hrun, (init_baud_failure port baud l _ Hopen Hbaud).
    unfold scan_opened. rewrite Hlen, <- !app_assoc. reflexivity.
Qed.

End Sessions.

Lemma connect_controller_replaces_witness :
  dxl app_connected = Some session_3_7
  ∧ ∃ a',
      connect_controller (bench_sdk bench_3_7) "COM4" 1000000 [7]
                         app_connected
      = (Ok (true, "Connected successfully."), a')
      ∧ dxl a' = Some {| port_name := "COM4"; baudrate := 1000000;
                         ids := [7]; port_handler := 6 |}
      ∧ dxl_error_message a' = None.
Proof.
  split; [reflexivity |].
  destruct (connect_controller_replaces (bench_sdk bench_3_7)
              "COM4" 1000000 [7] app_connected session_3_7 eq_refl)
    as (_ & _ & Hsuccess & _).
  assert (Hready : port_ready (bench_sdk bench_3_7) "COM4" 1000000
                     (world app_connected
                      ++ [ClosePort (port_handler session_3_7)]))
    by (split; reflexivity).
  assert (Hans : answers_pings (bench_sdk bench_3_7)
                   (S (length (world app_connected)))).
  { intros w id. simpl. destruct ((id =? 3) || (id =? 7)); eauto. }
  eexists. split; [exact (Hsuccess Hready Hans) |].
  split; reflexivity.
Defined.

Lemma session_construction_pings_every_id_witness :
  port_ready (bench_sdk bench_3_7) "COM4" 1000000 []
  ∧ answers_pings (bench_sdk bench_3_7) 0
  ∧ __init__ (bench_sdk bench_3_7) "COM4" 1000000 [3; 5] []
    = (Ok {| port_name := "COM4"; baudrate := 1000000; ids := [3; 5];
             port_handler := 0 |},
       [NewPortHandler "COM4"; OpenPort 0; SetBaudRate 0 1000000;
        Ping 0 3; Ping 0 5]).
Proof.
  assert (Hready : port_ready (bench_sdk bench_3_7) "COM4" 1000000 [])
    by (split; reflexivity).
  assert (Hans : answers_pings (bench_sdk bench_3_7) 0).
  { intros w id. simpl. destruct ((id =? 3) || (id =? 7)); eauto. }
  split; [exact Hready |]. split; [exact Hans |].
  exact (session_construction_pings_every_id (bench_sdk bench_3_7)
           "COM4" 1000000 [3; 5] [] Hready Hans).
Defined.

Lemma connect_controller_port_does_not_open_witness :
  sdk_openPort sdk_no_port
    (world app_connected ++ closing app_connected ++ [NewPortHandler "COM9"])
    (length (world app_connected ++ closing app_connected)) = Ret false
  ∧ ∃ a',
      connect_controller sdk_no_port "COM9" 57600 [1] app_connected
      = (Ok (false, "Failed to connect: Failed to open port COM9"), a')
      ∧ dxl a' = None
      ∧ dxl_error_message a' = Some "Failed to open port COM9"
      ∧ connection_info a' = connection_info app_connected.
Proof.
  split; [reflexivity |]. eexists.
  split; [exact (connect_controller_port_does_not_open sdk_no_port
                   "COM9" 57600 [1] app_connected eq_refl) |].
  repeat split.
Defined.

Lemma connect_controller_baud_not_taken_witness :
  sdk_openPort sdk_no_baud
    (world app_idle ++ closing app_idle ++ [NewPortHandler "COM9"])
    (length (world app_idle ++ closing app_idle)) = Ret true
  ∧ sdk_setBaudRate sdk_no_baud
      (world app_idle ++ closing app_idle
       ++ [NewPortHandler "COM9";
           OpenPort (length (world app_idle ++ closing app_idle))])
      (length (world app_idle ++ closing app_idle)) 57600 = Ret false
  ∧ ∃ a',
      connect_controller sdk_no_baud "COM9" 57600 [1] app_idle
      = (Ok (false,
             "Failed to connect: Failed to set baudrate 57600 on COM9"), a')
      ∧ world a' = [NewPortHandler "COM9"; OpenPort 0; SetBaudRate 0 57600].
Proof.
  split; [reflexivity |]. split; [reflexivity |]. eexists.
  split; [exact (connect_controller_baud_not_taken sdk_no_baud
                   "COM9" 57600 [1] app_idle eq_refl eq_refl) |].
  reflexivity.
Defined.

Lemma connect_controller_succeeds_witness :
  port_ready (bench_sdk bench_3_7) "COM4" 1000000
             (world app_idle ++ closing app_idle)
  ∧ answers_pings (bench_sdk bench_3_7)
                  (length (world app_idle ++ closing app_idle))
  ∧ ∃ a',
      connect_controller (bench_sdk bench_3_7) "COM4" 1000000 [5] app_idle
      = (Ok (true, "Connected successfully."), a')
      ∧ world a' = [NewPortHandler "COM4"; OpenPort 0;
                    SetBaudRate 0 1000000; Ping 0 5].
Proof.
  assert (Hready : port_ready (bench_sdk bench_3_7) "COM4" 1000000
                     (world app_idle ++ closing app_idle))
    by (split; reflexivity).
  assert (Hans : answers_pings (bench_sdk bench_3_7)
                   (length (world app_idle ++ closing app_idle))).
  { intros w id. simpl. destruct ((id =? 3) || (id =? 7)); eauto. }
  split; [exact Hready |]. split; [exact Hans |]. eexists.
  split; [exact (connect_controller_succeeds (bench_sdk bench_3_7)
                   "COM4" 1000000 [5] app_idle Hready Hans) |].
  reflexivity.
Defined.

Lemma connect_then_disconnect_witness :
  port_ready (bench_sdk bench_3_7) "COM4" 1000000
             (world app_connected ++ closing app_connected)
  ∧ answers_pings (bench_sdk bench_3_7)
                  (length (world app_connected ++ closing app_connected))
  ∧ ∃ a',
      (connect_controller (bench_sdk bench_3_7) "COM4" 1000000 [7] ;;
       disconnect_controller (bench_sdk bench_3_7)) app_connected
      = (Ok tt, a')
      ∧ dxl a' = None
      ∧ world a' = world app_connected
                   ++ [ClosePort 0; NewPortHandler "COM4"; OpenPort 6;
                       SetBaudRate 6 1000000; Ping 6 7; ClosePort 6].
Proof.
  assert (Hready : port_ready (bench_sdk bench_3_7) "COM4" 1000000
                     (world app_connected ++ closing app_connected))
    by (split; reflexivity).
  assert (Hans : answers_pings (bench_sdk bench_3_7)
                   (length (world app_connected ++ closing app_connected))).
  { intros w id. simpl. destruct ((id =? 3) || (id =? 7)); eauto. }
  split; [exact Hready |]. split; [exact Hans |]. eexists.
  split; [exact (connect_then_disconnect (bench_sdk bench_3_7)
                   "COM4" 1000000 [7] app_connected Hready Hans) |].
  split; reflexivity.
Defined.

(** ** Scans that do not reach the sweep *)

Section ScanPaths.

Context (sdk : SDK).
Context (DEFAULT_BAUDRATE SCAN_ID_MIN SCAN_ID_MAX : Z).
Context (int_of_str : string → option Z).

(** X12. A scan without a port, or with an empty port name, emits one
    [scan_result] with [ok] false, the message "No port specified." and no
    ids; it creates no handler and issues no call on the bus. *)
Theorem scan_without_port message (a : App) :
  msg_port message = None ∨ msg_port message = Some "" →
  handle_scan_servos sdk DEFAULT_BAUDRATE SCAN_ID_MIN SCAN_ID_MAX int_of_str
                     message a
  = (Ok tt,
     {| dxl := dxl a; dxl_error_message := dxl_error_message a;
        connection_info := connection_info a;
        outbox := outbox a ++ [scan_result false "No port specified." [] None];
        world := world a |}).
Proof.
  intros [H | H]; unfold handle_scan_servos; rewrite H; reflexivity.
Qed.

(** The scan up to the answer of [openPort]. *)
Lemma scan_prologue message port (a : App) :
  msg_port message = Some port → port ≠ "" →
  ∃ body,
    handle_scan_servos sdk DEFAULT_BAUDRATE SCAN_ID_MIN SCAN_ID_MAX
                       int_of_str message a
    = try_finally body
        (try_except (in_world (closePort sdk (length (world a))))
                    (λ _, ret tt))
        {| dxl := dxl a; dxl_error_message := dxl_error_message a;
           connection_info := connection_info a; outbox := outbox a;
           world := world a ++ [NewPortHandler port] |}
    ∧ body
      = (opened ← in_world (openPort sdk (length (world a)));
         if negb opened then
           emit (scan_result false ("Failed to open port " +:+ port) [] None)
         else
           set ← in_world
                   (setBaudRate sdk (length (world a))
                      (scan_baudrate DEFAULT_BAUDRATE int_of_str message));
           if negb set then
             emit (scan_result false
                     ("Failed to set baudrate "
                        +:+ str_of_Z (scan_baudrate DEFAULT_BAUDRATE
                                        int_of_str message))
                     [] None)
           else
             found_ids ← in_world
                 (scan_sweep sdk (length (world a))
                    (scan_range SCAN_ID_MIN SCAN_ID_MAX int_of_str message).1
                    (scan_range SCAN_ID_MIN SCAN_ID_MAX int_of_str message).2);
             emit (scan_result true
                     (scan_message port
                        (scan_baudrate DEFAULT_BAUDRATE int_of_str message)
                        (scan_range SCAN_ID_MIN SCAN_ID_MAX int_of_str
                                    message).1
                        (scan_range SCAN_ID_MIN SCAN_ID_MAX int_of_str
                                    message).2
                        found_ids)
                     found_ids
                     (Some (port,
                            scan_baudrate DEFAULT_BAUDRATE int_of_str message,
                            (scan_range SCAN_ID_MIN SCAN_ID_MAX int_of_str
                                        message).1,
                            (scan_range SCAN_ID_MIN SCAN_ID_MAX int_of_str
                                        message).2)))).
Proof.
  intros Hport Hne. eexists. split; [| reflexivity].
  unfold handle_scan_servos. rewrite Hport.
  apply String.eqb_neq in Hne. rewrite Hne.
  destruct (scan_range SCAN_ID_MIN SCAN_ID_MAX int_of_str message)
    as [lo hi].
  rewrite bind_run. destruct a; reflexivity.
Qed.

(** The [finally] clause of a scan: [closePort], whose failure is
    swallowed. *)
Lemma scan_epilogue h (a : App) :
  try_except (in_world (closePort sdk h)) (λ _, ret tt) a
  = (Ok tt,
     {| dxl := dxl a; dxl_error_message := dxl_error_message a;
        connection_info := connection_info a; outbox := outbox a;
        world := world a ++ [ClosePort h] |}).
Proof.
  unfold try_except, in_world, closePort, sdk_call.
  destruct (sdk_closePort sdk (world a) h) as [[] | msg]; reflexivity.
Qed.

Ltac scan_state :=
  cbn [world dxl dxl_error_message connection_info outbox negb].

(** X13. A scan whose port does not open emits one [scan_result] with [ok]
    false and the message "Failed to open port <port>", probes no id, and
    still calls [closePort] on its handler before it returns. *)
Theorem scan_port_does_not_open message port (a : App) :
  msg_port message = Some port → port ≠ "" →
  sdk_openPort sdk (world a ++ [NewPortHandler port]) (length (world a))
    = Ret false →
  handle_scan_servos sdk DEFAULT_BAUDRATE SCAN_ID_MIN SCAN_ID_MAX int_of_str
                     message a
  = (Ok tt,
     {| dxl := dxl a; dxl_error_message := dxl_error_message a;
        connection_info := connection_info a;
        outbox := outbox a
                  ++ [scan_result false ("Failed to open port " +:+ port)
                        [] None];
        world := world a
                 ++ [NewPortHandler port; OpenPort (length (world a));
                     ClosePort (length (world a))] |}).
Proof.
  intros Hport Hne Hopen.
  destruct (scan_prologue message port a Hport Hne) as (body & -> & ->).
  unfold try_finally. rewrite bind_run.
  unfold in_world at 1, openPort at 1, sdk_call at 1. scan_state.
  rewrite Hopen. scan_state. unfold emit, modify. rewrite scan_epilogue.
  scan_state. rewrite <- !app_assoc. reflexivity.
Qed.

(** X14. A scan whose port opens but does not take the baud rate emits one
    [scan_result] with [ok] false and the message "Failed to set baudrate
    <baud>", probes no id, and closes its port before it returns. *)
Theorem scan_baud_not_taken message port baudrate (a : App) :
  msg_port message = Some port → port ≠ "" →
  scan_baudrate DEFAULT_BAUDRATE int_of_str message = baudrate →
  sdk_openPort sdk (world a ++ [NewPortHandler port]) (length (world a))
    = Ret true →
  sdk_setBaudRate sdk
    (world a ++ [NewPortHandler port; OpenPort (length (world a))])
    (length (world a)) baudrate = Ret false →
  handle_scan_servos sdk DEFAULT_BAUDRATE SCAN_ID_MIN SCAN_ID_MAX int_of_str
                     message a
  = (Ok tt,
     {| dxl := dxl a; dxl_error_message := dxl_error_message a;
        connection_info := connection_info a;
        outbox := outbox a
                  ++ [scan_result false
                        ("Failed to set baudrate " +:+ str_of_Z baudrate)
                        [] None];
        world := scan_opened port baudrate (world a)
                 ++ [ClosePort (length (world a))] |}).
Proof.
  intros Hport Hne Hb Hopen Hbaud.
  destruct (scan_prologue message port a Hport Hne) as (body & -> & ->).
  rewrite Hb.
  unfold try_finally. rewrite bind_run.
  unfold in_world at 1, openPort at 1, sdk_call at 1. scan_state.
  rewrite Hopen. scan_state. rewrite bind_run.
  unfold in_world at 1, setBaudRate at 1, sdk_call at 1. scan_state.
  rewrite <- app_assoc. simpl app at 1. rewrite Hbaud. scan_state.
  unfold emit, modify. rewrite scan_epilogue.
  scan_state. unfold scan_opened. rewrite <- !app_assoc. reflexivity.
Qed.


(** X16. A scan with its bounds given in reverse order is the scan with
    the bounds in order: for nonzero integer bounds the swept range is
    from the smaller to the larger, either way, and the two scans do the
    same. *)
Theorem scan_swapped_bounds port baud (lo hi : Z) (a : App) :
  lo ≠ 0 → hi ≠ 0 →
  scan_range SCAN_ID_MIN SCAN_ID_MAX int_of_str
    {| msg_port := port; msg_baudrate := baud;
       msg_idMin := JInt hi; msg_idMax := JInt lo |}
  = (Z.min lo hi, Z.max lo hi)
  ∧ handle_scan_servos sdk DEFAULT_BAUDRATE SCAN_ID_MIN SCAN_ID_MAX
      int_of_str
      {| msg_port := port; msg_baudrate := baud;
         msg_idMin := JInt hi; msg_idMax := JInt lo |} a
    = handle_scan_servos sdk DEFAULT_BAUDRATE SCAN_ID_MIN SCAN_ID_MAX
        int_of_str
        {| msg_port := port; msg_baudrate := baud;
           msg_idMin := JInt lo; msg_idMax := JInt hi |} a.
Proof.
  intros Hlo Hhi.
  assert (Hrange : ∀ x y, x ≠ 0 → y ≠ 0 →
            scan_range SCAN_ID_MIN SCAN_ID_MAX int_of_str
              {| msg_port := port; msg_baudrate := baud;
                 msg_idMin := JInt x; msg_idMax := JInt y |}
            = (Z.min x y, Z.max x y)).
  { intros x y Hx Hy. unfold scan_range, int_or. simpl.
    apply Z.eqb_neq in Hx, Hy. rewrite Hx, Hy. simpl.
    destruct (Z.gtb_spec x y); f_equal; lia. }
  split; [rewrite Hrange by assumption; f_equal; lia |].
  unfold handle_scan_servos. cbn [msg_port].
  rewrite !Hrange by assumption.
  rewrite (Z.min_comm hi lo), (Z.max_comm hi lo). reflexivity.
Qed.

End ScanPaths.

Lemma scan_without_port_witness :
  (msg_port scan_unnamed = None ∨ msg_port scan_unnamed = Some "")
  ∧ ∃ a',
      handle_scan_servos (bench_sdk bench_3_7) 57600 1 252 (λ _, None)
                         scan_unnamed app_connected = (Ok tt, a')
      ∧ world a' = world app_connected
      ∧ outbox a' = [scan_result false "No port specified." [] None].
Proof.
  split; [right; reflexivity |]. eexists.
  split; [exact (scan_without_port (bench_sdk bench_3_7) 57600 1 252
                   (λ _, None) scan_unnamed app_connected
                   (or_intror eq_refl)) |].
  split; reflexivity.
Defined.

Lemma scan_port_does_not_open_witness :
  msg_port scan_1_10 = Some "COM3" ∧ "COM3" ≠ ""
  ∧ sdk_openPort sdk_no_port (world app_idle ++ [NewPortHandler "COM3"])
                 (length (world app_idle)) = Ret false
  ∧ ∃ a',
      handle_scan_servos sdk_no_port 57600 1 252 (λ _, None)
                         scan_1_10 app_idle = (Ok tt, a')
      ∧ outbox a' = [scan_result false "Failed to open port COM3" [] None]
      ∧ world a' = [NewPortHandler "COM3"; OpenPort 0; ClosePort 0].
Proof.
  split; [reflexivity |]. split; [discriminate |]. split; [reflexivity |].
  eexists.
  split; [exact (scan_port_does_not_open sdk_no_port 57600 1 252 (λ _, None)
                   scan_1_10 "COM3" app_idle eq_refl ltac:(discriminate)
                   eq_refl) |].
  split; reflexivity.
Defined.

Lemma scan_baud_not_taken_witness :
  msg_port scan_1_10 = Some "COM3" ∧ "COM3" ≠ ""
  ∧ scan_baudrate 57600 (λ _, None) scan_1_10 = 57600
  ∧ sdk_openPort sdk_no_baud (world app_idle ++ [NewPortHandler "COM3"])
                 (length (world app_idle)) = Ret true
  ∧ sdk_setBaudRate sdk_no_baud
      (world app_idle
       ++ [NewPortHandler "COM3"; OpenPort (length (world app_idle))])
      (length (world app_idle)) 57600 = Ret false
  ∧ ∃ a',
      handle_scan_servos sdk_no_baud 57600 1 252 (λ _, None)
                         scan_1_10 app_idle = (Ok tt, a')
      ∧ outbox a' = [scan_result false "Failed to set baudrate 57600"
                       [] None]
      ∧ world a' = [NewPortHandler "COM3"; OpenPort 0; SetBaudRate 0 57600;
                    ClosePort 0].
Proof.
  split; [reflexivity |]. split; [discriminate |]. split; [reflexivity |].
  split; [reflexivity |]. split; [reflexivity |]. eexists.
  split; [exact (scan_baud_not_taken sdk_no_baud 57600 1 252 (λ _, None)
                   scan_1_10 "COM3" 57600 app_idle eq_refl
                   ltac:(discriminate) eq_refl eq_refl eq_refl) |].
  split; reflexivity.
Defined.


Lemma scan_swapped_bounds_witness :
  50 ≠ 0 ∧ 10 ≠ 0
  ∧ scan_range 1 252 (λ _, None)
      {| msg_port := Some "COM3"; msg_baudrate := JNone;
         msg_idMin := JInt 50; msg_idMax := JInt 10 |}
    = (Z.min 10 50, Z.max 10 50)
  ∧ handle_scan_servos (bench_sdk bench_3_7) 57600 1 252 (λ _, None)
      {| msg_port := Some "COM3"; msg_baudrate := JNone;
         msg_idMin := JInt 50; msg_idMax := JInt 10 |} app_idle
    = handle_scan_servos (bench_sdk bench_3_7) 57600 1 252 (λ _, None)
        {| msg_port := Some "COM3"; msg_baudrate := JNone;
           msg_idMin := JInt 10; msg_idMax := JInt 50 |} app_idle.
Proof.
  split; [discriminate |]. split; [discriminate |].
  exact (scan_swapped_bounds (bench_sdk bench_3_7) 57600 1 252 (λ _, None)
           (Some "COM3") JNone 10 50 app_idle ltac:(discriminate)
           ltac:(discriminate)).
Defined.

(** ** Command and connection handlers *)

Section MoreHandlers.

Context (sdk : SDK).
Context (DEFAULT_BAUDRATE : Z).
Context (int_of_str : string → option Z).

(** X18. Without an active session, the [set_torque], [set_pid] and
    [set_goals] handlers emit the [backend_error] "Not connected to any
    Dynamixel bus." and nothing else, and issue no call on the bus. *)
Theorem commands_need_a_session (a : App) torque_message pid_message
    goals_message :
  dxl a = None →
  let refused :=
    (Ok tt,
     {| dxl := dxl a; dxl_error_message := dxl_error_message a;
        connection_info := connection_info a;
        outbox := outbox a
                  ++ [backend_error "Not connected to any Dynamixel bus."];
        world := world a |}) in
  handle_set_torque sdk int_of_str torque_message a = refused
  ∧ handle_set_pid sdk pid_message a = refused
  ∧ handle_set_goals sdk int_of_str goals_message a = refused.
Proof.
  intros Hd refused. subst refused.
  destruct a as [d err info out w]. simpl in Hd. subst d.
  repeat split; reflexivity.
Qed.

Lemma all_accepted_app (w : World) (l1 l2 : list Call) :
  all_accepted sdk w (l1 ++ l2)
  ↔ all_accepted sdk w l1 ∧ all_accepted sdk (w ++ l1) l2.
Proof.
  revert w. induction l1 as [| c l1 IH]; intros w; simpl.
  - rewrite app_nil_r. tauto.
  - rewrite IH, <- app_assoc. simpl. tauto.
Qed.

Lemma ends_as_writes_ret : ends_as_writes sdk (mret tt) [].
Proof. intros w. left. simpl. rewrite app_nil_r. done. Qed.

Lemma ends_as_writes_write wd self id addr v :
  answers_all_writes sdk →
  ends_as_writes sdk (write_width sdk wd self id addr v)
                 [write_call wd self id addr v].
Proof.
  intros Hans w.
  destruct (Hans w wd (port_handler self) id addr (encode wd v))
    as (cr & e & Hw).
  unfold write_width, writeTxRx, sdk_call. rewrite bind_run, Hw.
  rewrite check_result_run. unfold write_outcome, write_call.
  destruct (Z.eqb_spec cr (COMM_SUCCESS sdk)) as [-> | Hcr]; simpl.
  - destruct (Z.eqb_spec e 0) as [-> | He]; simpl.
    + left. unfold accepted. simpl. rewrite Hw. done.
    + right. exists [], (WriteTxRx wd (port_handler self) id addr
                                   (encode wd v)), [], (COMM_SUCCESS sdk), e.
      unfold failure_text. rewrite Z.eqb_refl, app_nil_r. simpl.
      rewrite Hw. split_and!; try done. right. exact He.
  - right. exists [], (WriteTxRx wd (port_handler self) id addr
                                 (encode wd v)), [], cr, e.
    unfold failure_text.
    destruct (Z.eqb_spec cr (COMM_SUCCESS sdk)) as [? | _]; [done |].
    rewrite app_nil_r. simpl. rewrite Hw. split_and!; try done.
    left. exact Hcr.
Qed.

Lemma ends_as_writes_seq (m1 m2 : M World unit) (c1 c2 : list Call) :
  ends_as_writes sdk m1 c1 → ends_as_writes sdk m2 c2 →
  ends_as_writes sdk (m1 ;; m2) (c1 ++ c2).
Proof.
  intros H1 H2 w. rewrite bind_run. specialize (H1 w).
  destruct (m1 w) as [r1 w1]. simpl in H1.
  destruct H1 as [(Ha1 & -> & ->)
                 | (done & c & rest & cr & e & -> & Hd & Hr & Hx & -> & ->)].
  - specialize (H2 (w ++ c1)).
    destruct H2 as [(Ha2 & Hr2 & Hw2)
                   | (done & c & rest & cr & e & -> & Hd & Hr & Hx & Hr2
                      & Hw2)].
    + left. split; [apply all_accepted_app; done |].
      split; [exact Hr2 |]. rewrite Hw2, app_assoc. done.
    + right. exists (c1 ++ done), c, rest, cr, e.
      split; [rewrite <- app_assoc; done |].
      split; [apply all_accepted_app; done |].
      split; [rewrite app_assoc; exact Hr |].
      split; [exact Hx |]. split; [exact Hr2 |].
      rewrite Hw2, <- !app_assoc. done.
  - right. exists done, c, (rest ++ c2), cr, e.
    split; [rewrite <- app_assoc; done |]. done.
Qed.

Lemma ends_as_writes_if_not_None wd self id addr (value : option Z) :
  answers_all_writes sdk →
  ends_as_writes sdk (if_not_None value (write_width sdk wd self id addr))
                 (option_list (write_call wd self id addr <$> value)).
Proof.
  intros Hans. destruct value; simpl;
    [apply ends_as_writes_write, Hans | apply ends_as_writes_ret].
Qed.

(** How [set_goals] ends when the bus answers every write. *)
Lemma set_goals_outcome self id gp gv gc gpwm pv pa (w : World) :
  answers_all_writes sdk →
  write_outcome sdk w (goal_writes self id gp gv gc gpwm pv pa)
    (set_goals sdk self id gp gv gc gpwm pv pa w).1
    (set_goals sdk self id gp gv gc gpwm pv pa w).2.
Proof.
  intros Hans. revert w. unfold set_goals, goal_writes, _write2, _write4.
  repeat apply ends_as_writes_seq; apply ends_as_writes_if_not_None, Hans.
Qed.

(** A conversion changes no state, and raises nothing but the error of
    [int]. *)
Lemma int_conv_run {S} (v : JVal) (s : S) :
  int_conv int_of_str v s
  = match py_int int_of_str v with
    | Some z => (Ok z, s)
    | None => (Err (ForeignError (int_error_text v)), s)
    end.
Proof. unfold int_conv. destruct (py_int int_of_str v); reflexivity. Qed.

Lemma maybe_int_run {S} (v : JVal) (s : S) :
  (∃ r, maybe_int int_of_str v s = (Ok r, s))
  ∨ ∃ text, maybe_int int_of_str v s = (Err (ForeignError text), s).
Proof.
  destruct v as [| [] | z | str]; simpl; eauto.
  destruct (String.eqb str ""); [eauto |].
  destruct (int_of_str str); eauto.
Qed.

(** X17. [set_torque] through its handler, on a connected controller.
    When the id converts to an integer and the bus answers the torque
    write with a status pair, the handler never raises: it issues that one
    write and emits one log entry, the info entry "ID <id>: torque ON" or
    "OFF" exactly when the write came back without transport failure and
    without device fault, and otherwise the error entry "Failed to set
    torque on ID <id>: " followed by the reason.  When the id does not
    convert, the handler raises before the [try] block: nothing is
    written, nothing is emitted. *)
Theorem handle_set_torque_reports message (a : App) controller :
  dxl a = Some controller →
  (∀ id cr e,
     py_int int_of_str (torque_id message) = Some id →
     sdk_write sdk (world a) W1 (port_handler controller) id
               ADDR_TORQUE_ENABLE
               (if truthy (torque_enable message) then 1 else 0)
       = Ret (cr, e) →
     handle_set_torque sdk int_of_str message a
     = (Ok tt,
        {| dxl := dxl a; dxl_error_message := dxl_error_message a;
           connection_info := connection_info a;
           outbox :=
             outbox a
             ++ [if (cr =? COMM_SUCCESS sdk) && (e =? 0)
                 then log "info"
                        ("ID " +:+ str_of_Z id +:+ ": torque "
                           +:+ (if truthy (torque_enable message)
                                then "ON" else "OFF"))
                 else log "error"
                        ("Failed to set torque on ID " +:+ str_of_Z id
                           +:+ ": "
                           +:+ failure_text sdk
                                 (write_failed id ADDR_TORQUE_ENABLE) cr e)];
           world := world a
                    ++ [torque_call controller id
                          (truthy (torque_enable message))] |}))
  ∧ (py_int int_of_str (torque_id message) = None →
     handle_set_torque sdk int_of_str message a
     = (Err (ForeignError (int_error_text (torque_id message))), a)).
Proof.
  intros Hc. destruct a as [d err info out w]. simpl in Hc. subst d.
  split.
  - intros id cr e Hid Hw. cbn [world] in Hw.
    unfold handle_set_torque. rewrite bind_run. cbn [get dxl].
    rewrite bind_run, int_conv_run, Hid.
    unfold try_except_DynamixelError. rewrite bind_run.
    unfold in_world at 1. cbn [world].
    unfold set_torque, _write1, write_width, writeTxRx, sdk_call.
    rewrite bind_run, encode_W1_bit, Hw, check_result_run.
    unfold failure_text, torque_call.
    destruct (cr =? COMM_SUCCESS sdk); simpl; [| reflexivity].
    destruct (e =? 0); reflexivity.
  - intros Hid. unfold handle_set_torque. rewrite bind_run. cbn [get dxl].
    rewrite bind_run, int_conv_run, Hid. reflexivity.
Qed.

(** The [set_goals] handler once the id and the goals are converted. *)
Lemma handle_set_goals_converted message (a : App) controller id
    gp gv gc gpwm pv pa :
  dxl a = Some controller →
  py_int int_of_str (goals_id message) = Some id →
  maybe_int int_of_str (goalPosition message) a = (Ok gp, a) →
  maybe_int int_of_str (goalVelocity message) a = (Ok gv, a) →
  maybe_int int_of_str (goalCurrent message) a = (Ok gc, a) →
  maybe_int int_of_str (goalPwm message) a = (Ok gpwm, a) →
  maybe_int int_of_str (profileVelocity message) a = (Ok pv, a) →
  maybe_int int_of_str (profileAccel message) a = (Ok pa, a) →
  handle_set_goals sdk int_of_str message a
  = match set_goals sdk controller id gp gv gc gpwm pv pa (world a) with
    | (Ok _, w') =>
        (Ok tt,
         {| dxl := dxl a; dxl_error_message := dxl_error_message a;
            connection_info := connection_info a;
            outbox := outbox a
                      ++ [log "info" ("ID " +:+ str_of_Z id
                                        +:+ ": updated goals "
                                        +:+ repr_kwargs gp gv gc gpwm pv pa)];
            world := w' |})
    | (Err (DynamixelError reason), w') =>
        (Ok tt,
         {| dxl := dxl a; dxl_error_message := dxl_error_message a;
            connection_info := connection_info a;
            outbox := outbox a
                      ++ [log "error" ("Failed to set goals on ID "
                                         +:+ str_of_Z id +:+ ": "
                                         +:+ reason)];
            world := w' |})
    | (Err x, w') =>
        (Err x,
         {| dxl := dxl a; dxl_error_message := dxl_error_message a;
            connection_info := connection_info a;
            outbox := outbox a; world := w' |})
    end.
Proof.
  intros Hd Hid H1 H2 H3 H4 H5 H6.
  destruct a as [d err info out w]. simpl in Hd. subst d.
  unfold handle_set_goals. rewrite bind_run. cbn [get dxl].
  rewrite bind_run, int_conv_run, Hid.
  rewrite bind_run, H1, bind_run, H2, bind_run, H3, bind_run, H4,
    bind_run, H5, bind_run, H6.
  unfold try_except_DynamixelError. rewrite bind_run.
  unfold in_world at 1. cbn [world dxl dxl_error_message connection_info
    outbox].
  destruct (set_goals sdk controller id gp gv gc gpwm pv pa w)
    as [[[] | [reason | reason | reason]] w']; reflexivity.
Qed.

(** X19. The [set_goals] handler on a connected controller whose bus
    answers every write with a status pair.  When the id and the six goal
    fields convert (a goal given as an integer, zero included, is a value;
    a goal that is absent, the empty string or [False] is no value), the
    handler returns normally and changes nothing but the trace and the
    log.  Either the bus takes every write of the goals present, in the
    order of [set_goals]: then all of them are issued and the one entry
    emitted is the info entry with the converted goals.  Or the writes
    [done] are taken and the next one comes back with a failing status:
    then nothing is issued after it and the one entry emitted is the error
    entry with the id and the reason of that write.  Whenever the handler
    raises, it is with the error of a conversion, before the [try] block:
    the state is unchanged, nothing is written and nothing is emitted. *)
Theorem handle_set_goals_reports message (a : App) controller :
  dxl a = Some controller →
  answers_all_writes sdk →
  (∀ id gp gv gc gpwm pv pa,
     py_int int_of_str (goals_id message) = Some id →
     maybe_int int_of_str (goalPosition message) a = (Ok gp, a) →
     maybe_int int_of_str (goalVelocity message) a = (Ok gv, a) →
     maybe_int int_of_str (goalCurrent message) a = (Ok gc, a) →
     maybe_int int_of_str (goalPwm message) a = (Ok gpwm, a) →
     maybe_int int_of_str (profileVelocity message) a = (Ok pv, a) →
     maybe_int int_of_str (profileAccel message) a = (Ok pa, a) →
     ∃ a',
       handle_set_goals sdk int_of_str message a = (Ok tt, a')
       ∧ dxl a' = dxl a
       ∧ dxl_error_message a' = dxl_error_message a
       ∧ connection_info a' = connection_info a
       ∧ (all_accepted sdk (world a)
            (goal_writes controller id gp gv gc gpwm pv pa)
          ∧ world a'
            = world a ++ goal_writes controller id gp gv gc gpwm pv pa
          ∧ outbox a'
            = outbox a
              ++ [log "info" ("ID " +:+ str_of_Z id +:+ ": updated goals "
                                +:+ repr_kwargs gp gv gc gpwm pv pa)]
          ∨ ∃ done c rest cr e,
              goal_writes controller id gp gv gc gpwm pv pa
              = done ++ c :: rest
              ∧ all_accepted sdk (world a) done
              ∧ write_reply sdk (world a ++ done) c = Some (Ret (cr, e))
              ∧ failed sdk cr e
              ∧ world a' = world a ++ done ++ [c]
              ∧ outbox a'
                = outbox a
                  ++ [log "error"
                        ("Failed to set goals on ID " +:+ str_of_Z id
                           +:+ ": "
                           +:+ failure_text sdk (write_failed_of c) cr e)]))
  ∧ (py_int int_of_str (goals_id message) = None →
     handle_set_goals sdk int_of_str message a
     = (Err (ForeignError (int_error_text (goals_id message))), a))
  ∧ (∀ x a', handle_set_goals sdk int_of_str message a = (Err x, a') →
             a' = a ∧ ∃ text, x = ForeignError text).
Proof.
  intros Hd Hans.
  assert (Hconv : ∀ id gp gv gc gpwm pv pa,
    py_int int_of_str (goals_id message) = Some id →
    maybe_int int_of_str (goalPosition message) a = (Ok gp, a) →
    maybe_int int_of_str (goalVelocity message) a = (Ok gv, a) →
    maybe_int int_of_str (goalCurrent message) a = (Ok gc, a) →
    maybe_int int_of_str (goalPwm message) a = (Ok gpwm, a) →
    maybe_int int_of_str (profileVelocity message) a = (Ok pv, a) →
    maybe_int int_of_str (profileAccel message) a = (Ok pa, a) →
    ∃ a',
      handle_set_goals sdk int_of_str message a = (Ok tt, a')
      ∧ dxl a' = dxl a
      ∧ dxl_error_message a' = dxl_error_message a
      ∧ connection_info a' = connection_info a
      ∧ (all_accepted sdk (world a)
           (goal_writes controller id gp gv gc gpwm pv pa)
         ∧ world a'
           = world a ++ goal_writes controller id gp gv gc gpwm pv pa
         ∧ outbox a'
           = outbox a
             ++ [log "info" ("ID " +:+ str_of_Z id +:+ ": updated goals "
                               +:+ repr_kwargs gp gv gc gpwm pv pa)]
         ∨ ∃ done c rest cr e,
             goal_writes controller id gp gv gc gpwm pv pa
             = done ++ c :: rest
             ∧ all_accepted sdk (world a) done
             ∧ write_reply sdk (world a ++ done) c = Some (Ret (cr, e))
             ∧ failed sdk cr e
             ∧ world a' = world a ++ done ++ [c]
             ∧ outbox a'
               = outbox a
                 ++ [log "error"
                       ("Failed to set goals on ID " +:+ str_of_Z id
                          +:+ ": "
                          +:+ failure_text sdk (write_failed_of c) cr e)])).
  { intros id gp gv gc gpwm pv pa Hid H1 H2 H3 H4 H5 H6.
    rewrite (handle_set_goals_converted message a controller id
               gp gv gc gpwm pv pa Hd Hid H1 H2 H3 H4 H5 H6).
    pose proof (set_goals_outcome controller id gp gv gc gpwm pv pa
                  (world a) Hans) as Hout.
    destruct (set_goals sdk controller id gp gv gc gpwm pv pa (world a))
      as [r w']. simpl in Hout.
    destruct Hout as [(Hall & -> & ->)
                     | (done & c & rest & cr & e & Hsplit & Hall & Hr & Hx
                        & -> & ->)].
    - eexists. split; [reflexivity |]. cbn [dxl dxl_error_message
        connection_info world outbox]. split_and!; try done. left. done.
    - eexists. split; [reflexivity |]. cbn [dxl dxl_error_message
        connection_info world outbox]. split_and!; try done.
      right. exists done, c, rest, cr, e. done. }
  split; [exact Hconv |]. split.
  - intros Hid. unfold handle_set_goals. rewrite bind_run. cbn [get].
    rewrite Hd, bind_run, int_conv_run, Hid. reflexivity.
  - intros x a' Hrun.
    assert (Hraise : ∀ text, handle_set_goals sdk int_of_str message a
                             = (Err (ForeignError text), a) →
                             a' = a ∧ ∃ text', x = ForeignError text').
    { intros text H. rewrite H in Hrun. injection Hrun as <- <-. eauto. }
    destruct (py_int int_of_str (goals_id message)) as [id |] eqn:Hid.
    2: { apply (Hraise (int_error_text (goals_id message))).
         unfold handle_set_goals. rewrite bind_run. cbn [get].
         rewrite Hd, bind_run, int_conv_run, Hid. reflexivity. }
    destruct (maybe_int_run (goalPosition message) a) as [[gp H1] | [t H1]].
    2: { apply (Hraise t). unfold handle_set_goals. rewrite bind_run.
         cbn [get]. rewrite Hd, bind_run, int_conv_run, Hid, bind_run, H1.
         reflexivity. }
    destruct (maybe_int_run (goalVelocity message) a) as [[gv H2] | [t H2]].
    2: { apply (Hraise t). unfold handle_set_goals. rewrite bind_run.
         cbn [get]. rewrite Hd, bind_run, int_conv_run, Hid, bind_run, H1,
           bind_run, H2. reflexivity. }
    destruct (maybe_int_run (goalCurrent message) a) as [[gc H3] | [t H3]].
    2: { apply (Hraise t). unfold handle_set_goals. rewrite bind_run.
         cbn [get]. rewrite Hd, bind_run, int_conv_run, Hid, bind_run, H1,
           bind_run, H2, bind_run, H3. reflexivity. }
    destruct (maybe_int_run (goalPwm message) a) as [[gpwm H4] | [t H4]].
    2: { apply (Hraise t). unfold handle_set_goals. rewrite bind_run.
         cbn [get]. rewrite Hd, bind_run, int_conv_run, Hid, bind_run, H1,
           bind_run, H2, bind_run, H3, bind_run, H4. reflexivity. }
    destruct (maybe_int_run (profileVelocity message) a)
      as [[pv H5] | [t H5]].
    2: { apply (Hraise t). unfold handle_set_goals. rewrite bind_run.
         cbn [get]. rewrite Hd, bind_run, int_conv_run, Hid, bind_run, H1,
           bind_run, H2, bind_run, H3, bind_run, H4, bind_run, H5.
         reflexivity. }
    destruct (maybe_int_run (profileAccel message) a) as [[pa H6] | [t H6]].
    2: { apply (Hraise t). unfold handle_set_goals. rewrite bind_run.
         cbn [get]. rewrite Hd, bind_run, int_conv_run, Hid, bind_run, H1,
           bind_run, H2, bind_run, H3, bind_run, H4, bind_run, H5,
           bind_run, H6. reflexivity. }
    destruct (Hconv id gp gv gc gpwm pv pa eq_refl H1 H2 H3 H4 H5 H6)
      as (a'' & Hok & _).
    rewrite Hok in Hrun. discriminate.
Qed.

(** X20. A [connect_servos] message without a port, with an empty port
    name or without ids is refused before anything else happens: one
    [connect_result] with [ok] false and [connected] false is emitted,
    with the message "No port specified." or "No servo IDs selected." and
    the connection info as it is; nothing is called on the bus, and a
    session that is active stays active. *)
Theorem connect_servos_refuses_incomplete_message message sent (a : App) :
  cm_port message = None ∨ cm_port message = Some "" ∨ cm_ids message = [] →
  ∃ text,
    handle_connect_servos sdk DEFAULT_BAUDRATE int_of_str message (sent, a)
    = (Ok tt,
       (sent ++ [connect_result false text false (connection_info a)], a))
    ∧ (text = "No port specified." ∨ text = "No servo IDs selected.").
Proof.
  intros H. unfold handle_connect_servos.
  destruct (cm_port message) as [port |] eqn:Hport.
  - destruct (String.eqb port "") eqn:Hempty.
    + eexists. split; [reflexivity | left; reflexivity].
    + destruct H as [[=] | [[= ->] | ->]]; [discriminate |].
      eexists. split; [reflexivity | right; reflexivity].
  - eexists. split; [reflexivity | left; reflexivity].
Qed.



Lemma handle_disconnect_servos_run sent (a : App) :
  handle_disconnect_servos sdk (sent, a)
  = (Ok tt,
     (sent ++ [disconnected_event],
      {| dxl := None; dxl_error_message := dxl_error_message a;
         connection_info := no_connection;
         outbox := outbox a; world := world a ++ closing a |})).
Proof.
  unfold handle_disconnect_servos. rewrite bind_run.
  unfold lift_snd. rewrite disconnect_controller_run. reflexivity.
Qed.

(** X22. The [disconnect_servos] handler never raises and always reports
    success: after it no session is active, the connection info is empty,
    and one [connect_result] with [ok] true, [connected] false and empty
    info is emitted.  Handling it twice emits that event twice and closes
    the port of the active session only once. *)
Theorem disconnect_servos_twice sent (a : App) :
  (handle_disconnect_servos sdk ;; handle_disconnect_servos sdk) (sent, a)
  = (Ok tt,
     (sent ++ [disconnected_event; disconnected_event],
      {| dxl := None; dxl_error_message := dxl_error_message a;
         connection_info := no_connection;
         outbox := outbox a; world := world a ++ closing a |})).
Proof.
  rewrite bind_run, !handle_disconnect_servos_run.
  cbn [dxl world dxl_error_message connection_info outbox closing].
  rewrite app_nil_r, <- app_assoc. reflexivity.
Qed.

End MoreHandlers.

Lemma commands_need_a_session_witness :
  dxl app_idle = None
  ∧ handle_set_goals (bench_sdk bench_3_7) bench_int_of_str
                     goals_message_7 app_idle
    = (Ok tt,
       {| dxl := None; dxl_error_message := None;
          connection_info := connection_info app_idle;
          outbox := [backend_error "Not connected to any Dynamixel bus."];
          world := [] |}).
Proof.
  split; [reflexivity |].
  destruct (commands_need_a_session (bench_sdk bench_3_7) bench_int_of_str
              app_idle torque_off_3
              pid_message_3 goals_message_7 eq_refl) as (_ & _ & H).
  exact H.
Defined.

Lemma handle_set_torque_reports_witness :
  dxl app_connected = Some session_3_7
  ∧ handle_set_torque (bench_sdk bench_3_7) bench_int_of_str torque_off_3
                      app_connected
    = (Ok tt,
       {| dxl := dxl app_connected;
          dxl_error_message := dxl_error_message app_connected;
          connection_info := connection_info app_connected;
          outbox :=
            [log "error"
               "Failed to set torque on ID 3: Failed to write (ID 3, addr 64): [RxPacketError] Hardware error occurred."];
          world := world app_connected ++ [torque_call session_3_7 3 false] |})
  ∧ handle_set_torque (bench_sdk bench_3_7) bench_int_of_str torque_no_id
                      app_connected
    = (Err (ForeignError (int_error_text JNone)), app_connected).
Proof.
  split; [reflexivity |]. split.
  - destruct (handle_set_torque_reports (bench_sdk bench_3_7)
                bench_int_of_str torque_off_3 app_connected session_3_7
                eq_refl) as [Hrun _].
    rewrite (Hrun 3 0 1 eq_refl eq_refl). reflexivity.
  - destruct (handle_set_torque_reports (bench_sdk bench_3_7)
                bench_int_of_str torque_no_id app_connected session_3_7
                eq_refl) as [_ Hraise].
    exact (Hraise eq_refl).
Defined.

Lemma handle_set_goals_reports_witness :
  dxl app_connected = Some session_3_7
  ∧ answers_all_writes (bench_sdk bench_stiff)
  ∧ ∃ a',
      handle_set_goals (bench_sdk bench_stiff) bench_int_of_str
                       goals_message_3 app_connected = (Ok tt, a')
      ∧ world a'
        = world app_connected
          ++ [write_call W4 session_3_7 3 ADDR_PROFILE_ACCEL 9;
              write_call W4 session_3_7 3 ADDR_GOAL_VELOCITY 50]
      ∧ outbox a'
        = [log "error"
             "Failed to set goals on ID 3: Failed to write (ID 3, addr 104): [RxPacketError] Hardware error occurred."].
Proof.
  assert (Hans : answers_all_writes (bench_sdk bench_stiff)).
  { intros w wd h id addr value. simpl.
    destruct ((id =? 3) || (id =? 7)); eauto. }
  split; [reflexivity |]. split; [exact Hans |].
  destruct (handle_set_goals_reports (bench_sdk bench_stiff) bench_int_of_str
              goals_message_3 app_connected session_3_7 eq_refl Hans)
    as (Hconv & _ & _).
  destruct (Hconv 3 (Some 100) (Some 50) None None None (Some 9)
              eq_refl eq_refl eq_refl eq_refl eq_refl eq_refl eq_refl)
    as (a' & Hrun & _).
  exists a'. split; [exact Hrun |].
  pose proof (f_equal snd Hrun) as Hstate. vm_compute in Hstate.
  rewrite <- Hstate. split; reflexivity.
Defined.

Lemma connect_servos_refuses_incomplete_message_witness :
  (cm_port connect_message_no_ids = None
   ∨ cm_port connect_message_no_ids = Some ""
   ∨ cm_ids connect_message_no_ids = [])
  ∧ handle_connect_servos (bench_sdk bench_3_7) 57600 bench_int_of_str
                          connect_message_no_ids ([], app_connected)
    = (Ok tt,
       ([connect_result false "No servo IDs selected." false
                        (connection_info app_connected)],
        app_connected)).
Proof.
  split; [right; right; reflexivity |].
  destruct (connect_servos_refuses_incomplete_message (bench_sdk bench_3_7)
              57600 bench_int_of_str connect_message_no_ids []
              app_connected (or_intror (or_intror eq_refl)))
    as (text & Hrun & _).
  assert (Htext : text = "No servo IDs selected.").
  { pose proof Hrun as Hc. vm_compute in Hc. congruence. }
  rewrite Htext in Hrun. exact Hrun.
Defined.


(** ** Telemetry of any number of devices *)

Section MoreTelemetry.

Context (sdk : SDK).

(** X23. When the seven telemetry reads of a device succeed, [read_state]
    returns exactly eight entries: the operating mode and the two flags as
    read (a flag is true for any nonzero byte), PWM and current with
    16-bit sign recovery, velocity and position with 32-bit sign recovery,
    and the mode name looked up from the operating mode just read; it
    issues the seven reads in the order of the source and nothing else. *)
Theorem read_state_complete self id (w : World) v1 v2 v3 v4 v5 v6 v7 :
  reads_ok sdk self id w telemetry_fields [v1; v2; v3; v4; v5; v6; v7] →
  read_state sdk self id w
  = (Ok (<["operating_mode_name" := VStr (operating_mode_name v1)]>
           (<["moving" := VBool (bool_of_Z v7)]>
              (<["present_position" := VInt (decode W4 v6)]>
                 (<["present_velocity" := VInt (decode W4 v5)]>
                    (<["present_current" := VInt (decode W2 v4)]>
                       (<["present_pwm" := VInt (decode W2 v3)]>
                          (<["torque_enabled" := VBool (bool_of_Z v2)]>
                             (<["operating_mode" := VInt v1]> ∅)))))))),
     w ++ [ReadTxRx W1 (port_handler self) id ADDR_OPERATING_MODE;
           ReadTxRx W1 (port_handler self) id ADDR_TORQUE_ENABLE;
           ReadTxRx W2 (port_handler self) id ADDR_PRESENT_PWM;
           ReadTxRx W2 (port_handler self) id ADDR_PRESENT_CURRENT;
           ReadTxRx W4 (port_handler self) id ADDR_PRESENT_VELOCITY;
           ReadTxRx W4 (port_handler self) id ADDR_PRESENT_POSITION;
           ReadTxRx W1 (port_handler self) id ADDR_MOVING]).
Proof.
  intros Hok.
  rewrite read_state_unfold. unfold run_local, try_except_DynamixelError.
  rewrite (read_fields_ok sdk self id telemetry_fields _ _ ∅ w Hok).
  rewrite bind_run. unfold get_operating_mode at 1. rewrite bind_run.
  cbn [get ret store telemetry_fields f_key f_conv f_width decode].
  rewrite !lookup_insert_ne, lookup_insert_eq by done.
  reflexivity.
Qed.

Lemma read_state_of_reads_ok self id (w : World) vs :
  reads_ok sdk self id w telemetry_fields vs →
  ∃ state w', read_state sdk self id w = (Ok state, w')
              ∧ dom state = state_keys.
Proof.
  intros Hvs.
  rewrite read_state_unfold. unfold run_local, try_except_DynamixelError.
  rewrite (read_fields_ok sdk self id telemetry_fields vs _ ∅ w Hvs).
  eexists _, _. split; [reflexivity |].
  rewrite dom_insert_L, dom_store by (eapply reads_ok_length, Hvs).
  unfold state_keys. simpl. set_solver.
Qed.

(** With every read answered, the [try] block reads all the fields or
    raises a [DynamixelError]. *)
Lemma read_fields_answered self id (fs : list Field) rest state (w : World) :
  (∀ (w' : World) g, g ∈ fs →
     ∃ v cr e, field_reply sdk self id w' g = Ret (v, cr, e)) →
  (∃ vs, reads_ok sdk self id w fs vs)
  ∨ ∃ msg state' w',
      read_fields sdk self id fs rest (state, w)
      = (Err (DynamixelError msg), (state', w')).
Proof.
  intros Hans. revert state w.
  induction fs as [| f fs IH]; intros state w.
  - left. exists []. exact I.
  - destruct (Hans w f) as (v & cr & e & Hf); [left |].
    rewrite read_field_step, Hf.
    destruct ((cr =? COMM_SUCCESS sdk) && (e =? 0)) eqn:Hstatus;
      [| right; eauto].
    apply andb_true_iff in Hstatus as [Hcr He].
    apply Z.eqb_eq in Hcr, He. subst cr e.
    destruct (IH (λ w' g Hg, Hans w' g (list_elem_of_further _ _ _ Hg))
                 (<[f_key f := f_conv f (decode (f_width f) v)]> state)
                 (w ++ [field_call self id f]))
      as [[vs Hvs] | Hraise].
    + left. exists (v :: vs). split; assumption.
    + right. exact Hraise.
Qed.

(** A device that answers gets a state that is complete or carries the
    error; reading it does not raise. *)
Lemma read_state_answered self id (w : World) :
  answering_device sdk self id →
  ∃ state w', read_state sdk self id w = (Ok state, w')
              ∧ complete_or_error state.
Proof.
  intros Hans.
  destruct (read_fields_answered self id telemetry_fields
              (mode ← get_operating_mode;
               set_item "operating_mode_name"
                        (VStr (operating_mode_name mode)))
              ∅ w Hans) as [[vs Hvs] | (msg & state' & w' & Hraise)].
  - destruct (read_state_of_reads_ok self id w vs Hvs)
      as (state & w' & Hrun & Hdom).
    exists state, w'. split; [exact Hrun |]. left. split; [exact Hdom |].
    apply not_elem_of_dom. rewrite Hdom. unfold state_keys. set_solver.
  - rewrite read_state_unfold. unfold run_local, try_except_DynamixelError.
    rewrite Hraise. eexists _, _. split; [reflexivity |].
    right. rewrite lookup_insert_eq. eauto.
Qed.

Lemma read_all_loop self (l : list Z) (acc : gmap Z (gmap string PyVal))
    (w : World) :
  (∀ id, id ∈ l → answering_device sdk self id) →
  ∃ result w',
    for_acc l acc (λ result dxl_id,
      state ← read_state sdk self dxl_id;
      mret (<[dxl_id := state]> result)) w = (Ok result, w')
    ∧ dom result = dom acc ∪ list_to_set l
    ∧ ∀ id state, result !! id = Some state →
        acc !! id = Some state ∨ complete_or_error state.
Proof.
  revert acc w. induction l as [| x l IH]; intros acc w Hans.
  - exists acc, w. split; [reflexivity |]. split; [set_solver | eauto].
  - cbn [for_acc]. rewrite !bind_run.
    destruct (read_state_answered self x w (Hans x ltac:(left)))
      as (st & w1 & Hrun & Hst).
    rewrite Hrun. cbn [mret M_ret ret].
    destruct (IH (<[x := st]> acc) w1
                 (λ id Hid, Hans id (list_elem_of_further _ _ _ Hid)))
      as (result & w' & Hloop & Hdom & Hentries).
    exists result, w'. split; [exact Hloop |].
    split; [rewrite Hdom, dom_insert_L; set_solver |].
    intros id state Hlook.
    destruct (Hentries id state Hlook) as [Hacc | Hc]; [| right; exact Hc].
    destruct (decide (x = id)) as [-> | Hne].
    + rewrite lookup_insert_eq in Hacc. injection Hacc as <-.
      right. exact Hst.
    + rewrite lookup_insert_ne in Hacc by exact Hne. left. exact Hacc.
Qed.

(** X24. For any list of configured ids, when every telemetry read is
    answered by a status triple, a telemetry cycle never raises: the map
    it returns has an entry for every configured id and for no other, and
    every entry is either a complete state without error or a state that
    carries an error. *)
Theorem read_all_covers_every_id self (w : World) :
  (∀ id, id ∈ ids self → answering_device sdk self id) →
  ∃ result w',
    read_all_states sdk self w = (Ok result, w')
    ∧ dom result = list_to_set (ids self)
    ∧ ∀ id state, result !! id = Some state → complete_or_error state.
Proof.
  intros Hans. unfold read_all_states, read_all.
  destruct (read_all_loop self (ids self) ∅ w Hans)
    as (result & w' & Hloop & Hdom & Hentries).
  exists result, w'. split; [exact Hloop |].
  split; [rewrite Hdom, dom_empty_L; set_solver |].
  intros id state Hlook.
  destruct (Hentries id state Hlook) as [Hempty | Hc]; [| exact Hc].
  rewrite lookup_empty in Hempty. discriminate.
Qed.

End MoreTelemetry.

Lemma read_state_complete_witness :
  reads_ok (bench_sdk bench_3_7) session_3_7 3 [] telemetry_fields
           [3; 1; 1; 1; 1; 1; 1]
  ∧ (read_state (bench_sdk bench_3_7) session_3_7 3 []).1
    = Ok (<["operating_mode_name" := VStr "Position Control Mode"]>
            (<["moving" := VBool true]>
               (<["present_position" := VInt 1]>
                  (<["present_velocity" := VInt 1]>
                     (<["present_current" := VInt 1]>
                        (<["present_pwm" := VInt 1]>
                           (<["torque_enabled" := VBool true]>
                              (<["operating_mode" := VInt 3]> ∅)))))))).
Proof.
  assert (Hok : reads_ok (bench_sdk bench_3_7) session_3_7 3 []
                  telemetry_fields [3; 1; 1; 1; 1; 1; 1])
    by (repeat split).
  split; [exact Hok |].
  rewrite (read_state_complete (bench_sdk bench_3_7) session_3_7 3 []
             3 1 1 1 1 1 1 Hok).
  reflexivity.
Defined.

Lemma read_all_covers_every_id_witness :
  (∀ id, id ∈ ids session_3_7 →
     answering_device (bench_sdk bench_3_7) session_3_7 id)
  ∧ ∃ result w',
      read_all_states (bench_sdk bench_3_7) session_3_7 [] = (Ok result, w')
      ∧ dom result = list_to_set (ids session_3_7)
      ∧ ∀ id state, result !! id = Some state → complete_or_error state.
Proof.
  assert (Hans : ∀ id, id ∈ ids session_3_7 →
                   answering_device (bench_sdk bench_3_7) session_3_7 id).
  { intros id _ w g _. unfold field_reply. simpl.
    destruct ((id =? 3) || (id =? 7)); eauto. }
  split; [exact Hans |].
  exact (read_all_covers_every_id (bench_sdk bench_3_7) session_3_7 [] Hans).
Defined.
